(** * Pinpoint dataset server: query builder, result normalizer, dataset
    store and map shape cache.

    A shallow embedding of [server.py] (whose [build_query] and
    [parse_results] are shared, line for line, with [manage_datasets.py])
    together with the properties its specification states about it.

    Conventions of the embedding.
    - A Python [str] is a [string]; its characters are read as the code
      points 0..255.
    - A Python [int] is a [Z]; [f"{n}"] is stdpp's decimal [pretty].
    - A dict used as a struct is a [Record]; the files under the working
      directory are a [gmap] from path strings to contents, next to the
      slot of the store document [datasets.json]. Paths are compared as
      strings, and writing a file always succeeds.
    - The builtins and the outside world the handlers call are taken as
      parameters: [float], [hashlib.md5(..).hexdigest()], the SPARQL
      endpoint, the clock and the HTTP fetch of a shape file. *)

From stdpp Require Import gmap strings list pretty.
From Stdlib Require Import ZArith Ascii.

(** ** Python string methods used by the handlers *)

Module Str.

(** [s.startswith(p)] *)
Definition startswith (p s : string) : bool := String.prefix p s.

(** [s[n:]] *)
Fixpoint slice_from (n : nat) (s : string) : string :=
  match n, s with
  | O, _ => s
  | S _, EmptyString => EmptyString
  | S k, String _ t => slice_from k t
  end.

(** [s.replace(old, new)] for a non-empty [old]: a scan from the left that
    substitutes every occurrence that does not overlap an earlier one.
    [skip] counts the characters of a matched occurrence still to be
    passed over. *)
Fixpoint replace_go (old new : string) (skip : nat) (s : string) : string :=
  match s with
  | EmptyString => EmptyString
  | String c t =>
      match skip with
      | S k => replace_go old new k t
      | O =>
          if String.prefix old s
          then new +:+ replace_go old new (String.length old - 1) t
          else String c (replace_go old new 0 t)
      end
  end.

Definition replace (old new s : string) : string := replace_go old new 0 s.

(** [c.isspace()] on the code points below 256. *)
Definition isspace (c : ascii) : bool :=
  let n := Ascii.nat_of_ascii c in
  ((9 <=? n) && (n <=? 13)) || ((28 <=? n) && (n <=? 32))
  || (n =? 133) || (n =? 160).

(** [s.split()]: the maximal runs of non-blank characters, in order.
    [cur] is the run being read, [acc] the runs already closed. *)
Definition flush (cur : string) (acc : list string) : list string :=
  match cur with
  | EmptyString => acc
  | _ => acc ++ [cur]
  end.

Fixpoint split_go (cur : string) (acc : list string) (s : string)
  : list string :=
  match s with
  | EmptyString => flush cur acc
  | String c t =>
      if isspace c then split_go EmptyString (flush cur acc) t
      else split_go (cur +:+ String c EmptyString) acc t
  end.

Definition split (s : string) : list string := split_go EmptyString [] s.

(** [s.split(sep)] for a one-character [sep]: the fields between the
    separators, empty ones included; never the empty list. *)
Fixpoint split_on (sep : ascii) (s : string) : list string :=
  match s with
  | EmptyString => [EmptyString]
  | String c t =>
      if Ascii.eqb c sep then EmptyString :: split_on sep t
      else match split_on sep t with
           | h :: r => String c h :: r
           | [] => [String c EmptyString]
           end
  end.

(** [l[-1]] on a list of strings that is known not to be empty. *)
Definition last_item (l : list string) : string := List.last l EmptyString.

(** [all(p(c) for c in s)] *)
Fixpoint all_chars (p : ascii → bool) (s : string) : bool :=
  match s with
  | EmptyString => true
  | String c t => p c && all_chars p t
  end.

(** [sub in s] *)
Fixpoint occurs (sub s : string) : bool :=
  String.prefix sub s
  || match s with
     | EmptyString => false
     | String _ t => occurs sub t
     end.

(** [os.path.join(a, b)] on a POSIX system, for a non-empty [a]. *)
Definition path_join (a b : string) : string :=
  if String.prefix "/" b then b
  else if String.prefix "/" (String.rev a) then a +:+ b
  else a +:+ "/" +:+ b.

End Str.

(** The two characters a string literal cannot hold as they are. *)
Definition LF : string := String "010"%char EmptyString.
Definition DQUOTE : string := String "034"%char EmptyString.

(** ** Request models *)

Module Constraint.
Record t : Type := mk { property : string; value : string }.
End Constraint.

Module DatasetConfig.
Record t : Type := mk {
  item_type : string;
  constraints : list Constraint.t;
  dataset_type : string;  (* 'point' or 'polygon' *)
  min_pop : Z;
  exclude_dissolved : bool;
  limit : Z
}.
End DatasetConfig.

Module SaveRequest.
Record t : Type := mk {
  id : option string;
  config : DatasetConfig.t;
  name : string;
  description : string;
  prompt_template : string;
  sub_prompt_template : option string
}.
End SaveRequest.

Module DeleteRequest.
Record t : Type := mk { id : string }.
End DeleteRequest.

(** A metadata entry of [datasets.json]: the dict [new_entry] of [api_save].
    [data_keys] keeps its keys in insertion order. *)
Module DatasetEntry.
Record t : Type := mk {
  id : string;
  name : string;
  description : string;
  type : string;
  filename : string;
  prompt_template : string;
  sub_prompt_template : option string;
  config : DatasetConfig.t;
  data_keys : list (string * string)
}.
End DatasetEntry.

(** ** Query builder *)

(** The body of the loop over [config.constraints]: what one constraint
    appends to the query text built so far. *)
Definition add_constraint (sparql : string) (c : Constraint.t) : string :=
  let prop := Constraint.property c in
  let val := Constraint.value c in
  let is_negative := Str.startswith "-" prop in
  if is_negative then
    let prop := Str.slice_from 1 prop in
    sparql +:+ ("  FILTER NOT EXISTS { ?item wdt:" +:+ prop +:+ " wd:" +:+ val
                +:+ ". }" +:+ LF)
  else
    sparql +:+ ("  ?item wdt:" +:+ prop +:+ " wd:" +:+ val +:+ "." +:+ LF).

Definition build_query (config : DatasetConfig.t) : string :=
  let dataset_type := DatasetConfig.dataset_type config in
  let sparql := "SELECT DISTINCT ?item ?itemLabel " in
  let sparql :=
    if String.eqb dataset_type "point" then sparql +:+ "?coord "
    else if String.eqb dataset_type "polygon" then sparql +:+ "?geoShapeUrl "
    else sparql in
  let sparql := sparql +:+ "?sitelinks " in
  let sparql := sparql +:+ ("WHERE {" +:+ LF) in
  (* Main instance type *)
  let sparql :=
    sparql +:+ ("  ?item wdt:P31/wdt:P279* wd:"
                +:+ DatasetConfig.item_type config +:+ "." +:+ LF) in
  (* Constraints *)
  let sparql := fold_left add_constraint (DatasetConfig.constraints config) sparql in
  (* FILTER: Population *)
  let sparql :=
    if (0 <? DatasetConfig.min_pop config)%Z then
      sparql +:+ ("  ?item wdt:P1082 ?pop. FILTER(?pop >= "
                  +:+ pretty (DatasetConfig.min_pop config) +:+ ")." +:+ LF)
    else sparql in
  (* FILTER: Exclude Dissolved *)
  let sparql :=
    if DatasetConfig.exclude_dissolved config then
      sparql +:+ ("  FILTER NOT EXISTS { ?item wdt:P576 ?end. }" +:+ LF)
    else sparql in
  (* Type specific properties *)
  let sparql :=
    if String.eqb dataset_type "point" then
      sparql +:+ ("  ?item wdt:P625 ?coord." +:+ LF)
    else if String.eqb dataset_type "polygon" then
      sparql +:+ ("  ?item wdt:P3896 ?geoShapeUrl." +:+ LF)
    else sparql in
  (* Sitelinks for sorting relevance *)
  let sparql := sparql +:+ ("  ?item wikibase:sitelinks ?sitelinks." +:+ LF) in
  (* Label service *)
  let sparql :=
    sparql +:+ ("  SERVICE wikibase:label { bd:serviceParam wikibase:language "
                +:+ DQUOTE +:+ "[AUTO_LANGUAGE],en" +:+ DQUOTE +:+ ". }" +:+ LF) in
  let sparql := sparql +:+ ("}" +:+ LF) in
  (* ORDER BY Relevance (Sitelinks) *)
  let sparql := sparql +:+ ("ORDER BY DESC(?sitelinks)" +:+ LF) in
  let sparql := sparql +:+ ("LIMIT " +:+ pretty (DatasetConfig.limit config)) in
  sparql.

(** ** Exceptions and handler results *)

Inductive exn : Type :=
  | HTTPException (status_code : Z) (detail : string)
  | KeyError (key : string)
  | JSONDecodeError.

Inductive res (A : Type) : Type :=
  | Ok (a : A)
  | Raise (e : exn).
Arguments Ok {A} a.
Arguments Raise {A} e.

(** A binding row maps a variable name to its binding object, itself a map
    of strings ([type], [value], ...). The response document is an object of
    objects of row lists, read as [data['results']['bindings']]. *)
Abbreviation row := (gmap string (gmap string string)).
Abbreviation query_result := (gmap string (gmap string (list row))).

(** [item[var]['value']]; [None] stands for the [KeyError]. *)
Definition binding_value (item : row) (var : string) : option string :=
  b ← item !! var; b !! "value".

(** ** Result normalizer, dataset store and map shape cache *)

Section Server.

(** Python's floats and [float(s)]; [None] stands for the [ValueError]. *)
Context {F : Type}.
Variable float : string → option F.

(** [hashlib.md5(s.encode()).hexdigest()] *)
Variable md5_hexdigest : string → string.

(** One normalized record: the dict [entry] of [parse_results], with the
    keys a dataset type does not set left out. *)
Record entry : Type := mk_entry {
  entry_label : string;
  entry_id : string;
  entry_lat : option F;
  entry_lng : option F;
  entry_geoShapeUrl : option string
}.

(** The body of the [try] in [parse_results]; [None] when it raises, which
    the [except] clause turns into [continue]. *)
Definition parse_row (dataset_type : string) (item : row) : option entry :=
  label ← binding_value item "itemLabel";
  uri ← binding_value item "item";
  let entry := mk_entry label (Str.last_item (Str.split_on "/" uri))
                        None None None in
  if String.eqb dataset_type "point" then
    wkt ← binding_value item "coord";
    let clean := Str.replace ")" "" (Str.replace "Point(" "" wkt) in
    (* lon, lat = map(float, clean.split()) *)
    match float <$> Str.split clean with
    | [Some lon; Some lat] =>
        Some (mk_entry (entry_label entry) (entry_id entry)
                       (Some lat) (Some lon) None)
    | _ => None
    end
  else if String.eqb dataset_type "polygon" then
    url ← binding_value item "geoShapeUrl";
    Some (mk_entry (entry_label entry) (entry_id entry) None None (Some url))
  else Some entry.

(** One turn of the loop over the bindings. *)
Definition parse_step (dataset_type : string) (results : list entry)
    (item : row) : list entry :=
  match parse_row dataset_type item with
  | Some entry => results ++ [entry]
  | None => results
  end.

Definition parse_results (data : query_result) (dataset_type : string)
  : res (list entry) :=
  match data !! "results" with
  | None => Raise (KeyError "results")
  | Some results =>
      match results !! "bindings" with
      | None => Raise (KeyError "bindings")
      | Some bindings => Ok (fold_left (parse_step dataset_type) bindings [])
      end
  end.

(** *** The dataset store *)

(** What a path under the working directory holds: the records
    [json.dump] wrote for a dataset, or any other bytes. *)
Inductive file : Type :=
  | DataFile (records : list entry)
  | RawFile (content : string).

(** What [datasets.json] holds: a list of metadata entries, or text that
    [json.load] rejects. *)
Inductive document : Type :=
  | Datasets (datasets : list DatasetEntry.t)
  | Garbled (text : string).

(** The working directory: the store document (absent when [None]) and
    the other files by path. Paths are compared as strings. *)
Record disk : Type := mk_disk {
  store : option document;
  files : gmap string file
}.

(** The JSON object [api_save] answers with. *)
Record SaveResponse : Type := mk_SaveResponse {
  message : string;
  saved_id : string
}.

(** Truth value of an [Optional[str]]. *)
Definition truthy (s : option string) : bool :=
  match s with
  | Some s => negb (String.eqb s "")
  | None => false
  end.

(** [next((d for d in datasets if d['id'] == dataset_id), None)] *)
Definition find_entry (dataset_id : string) (datasets : list DatasetEntry.t)
  : option DatasetEntry.t :=
  List.find (λ d, String.eqb (DatasetEntry.id d) dataset_id) datasets.

(** The loop that assigns [datasets[i] = new_entry] at the first entry
    with the requested id and breaks. *)
Fixpoint replace_existing (rid : string) (new_entry : DatasetEntry.t)
    (datasets : list DatasetEntry.t) : list DatasetEntry.t :=
  match datasets with
  | [] => []
  | d :: rest =>
      if String.eqb (DatasetEntry.id d) rid then new_entry :: rest
      else d :: replace_existing rid new_entry rest
  end.

(** Load existing datasets: an absent or rejected document gives []. *)
Definition load_datasets (d : disk) : list DatasetEntry.t :=
  match store d with
  | Some (Datasets datasets) => datasets
  | Some (Garbled _) => []
  | None => []
  end.

Definition data_keys_for (dataset_type : string) : list (string * string) :=
  let data_keys := [("label", "label")] in
  if String.eqb dataset_type "point"
  then data_keys ++ [("lat", "lat"); ("lng", "lng")]
  else data_keys ++ [("geoShapeUrl", "geoShapeUrl")].

(** The dict [new_entry] that [api_save] builds for the request. *)
Definition make_new_entry (req : SaveRequest.t) (dataset_id filename : string)
  : DatasetEntry.t :=
  let cfg := SaveRequest.config req in
  DatasetEntry.mk dataset_id (SaveRequest.name req)
    (SaveRequest.description req) (DatasetConfig.dataset_type cfg)
    filename (SaveRequest.prompt_template req)
    (SaveRequest.sub_prompt_template req) cfg
    (data_keys_for (DatasetConfig.dataset_type cfg)).

(** [fetch_sparql] is the endpoint's answer to the query ([None] on any
    failure); [now_id] and [now_file] are the two readings
    [int(time.time())] of the clock a create takes. *)
Definition api_save (fetch_sparql : string → option query_result)
    (now_id now_file : Z) (req : SaveRequest.t) (d : disk)
  : res SaveResponse * disk :=
  let cfg := SaveRequest.config req in
  (* 1. Fetch Data *)
  let query := build_query cfg in
  match fetch_sparql query with
  | None => (Raise (HTTPException 500 "Failed to fetch data"), d)
  | Some raw_data =>
  if decide (raw_data = ∅)
  then (Raise (HTTPException 500 "Failed to fetch data"), d) else
  match parse_results raw_data (DatasetConfig.dataset_type cfg) with
  | Raise e => (Raise e, d)
  | Ok [] => (Raise (HTTPException 400 "No items found to save"), d)
  | Ok parsed_data =>
  (* Load existing datasets *)
  let datasets := load_datasets d in
  (* Determine ID and Filename *)
  let target :=
    if truthy (SaveRequest.id req) then
      let dataset_id := default "" (SaveRequest.id req) in
      match find_entry dataset_id datasets with
      | None => Raise (HTTPException 404 "Dataset not found")
      | Some existing_entry =>
          Ok (dataset_id, DatasetEntry.filename existing_entry)
      end
    else
      Ok ("custom_" +:+ pretty now_id,
          "dataset_" +:+ pretty now_file +:+ ".json") in
  match target with
  | Raise e => (Raise e, d)
  | Ok (dataset_id, filename) =>
  (* 2. Save Data File *)
  let filepath := Str.path_join "static" filename in
  let files' := <[filepath := DataFile parsed_data]> (files d) in
  (* 3. Update datasets.json *)
  let new_entry := make_new_entry req dataset_id filename in
  let datasets' :=
    if truthy (SaveRequest.id req)
    then replace_existing (default "" (SaveRequest.id req)) new_entry datasets
    else datasets ++ [new_entry] in
  (Ok (mk_SaveResponse "Dataset saved successfully" dataset_id),
   mk_disk (Some (Datasets datasets')) files')
  end end end.

(** [removable] tells whether [os.remove] succeeds on the data file. *)
Definition api_delete (removable : bool) (req : DeleteRequest.t) (d : disk)
  : res string * disk :=
  match store d with
  | None => (Raise (HTTPException 404 "No datasets found"), d)
  | Some (Garbled _) => (Raise JSONDecodeError, d)
  | Some (Datasets datasets) =>
      match find_entry (DeleteRequest.id req) datasets with
      | None => (Raise (HTTPException 404 "Dataset not found"), d)
      | Some target =>
          (* Delete data file *)
          let filepath := Str.path_join "static" (DatasetEntry.filename target) in
          let files' :=
            match files d !! filepath with
            | Some _ => if removable then delete filepath (files d) else files d
            | None => files d
            end in
          (* Remove from list *)
          let datasets' :=
            List.filter
              (λ e, negb (String.eqb (DatasetEntry.id e) (DeleteRequest.id req)))
              datasets in
          (Ok "Dataset deleted", mk_disk (Some (Datasets datasets')) files')
      end
  end.

(** *** The map shape cache *)

Definition MAPS_DIR : string := Str.path_join "static" "maps".

Inductive response : Type :=
  | FileResponse (path : string) (body : file)
  | JSONResponse (status_code : Z).

(** The cache key of a URL: the name of its cache file. *)
Definition cache_filename (url : string) : string :=
  let url := Str.replace "+" " " url in
  md5_hexdigest url +:+ ".json".

(** [requests_get] is the body of the answer to a GET of the URL, [None]
    when the request or [raise_for_status] raises. The last component
    lists the URLs the call fetched. *)
Definition proxy_map (requests_get : string → option string)
    (url : string) (d : disk) : response * disk * list string :=
  let url := Str.replace "+" " " url in
  (* Create a safe filename from the URL *)
  let filename := md5_hexdigest url +:+ ".json" in
  let file_path := Str.path_join MAPS_DIR filename in
  match files d !! file_path with
  | Some body => (FileResponse file_path body, d, [])
  | None =>
      match requests_get url with
      | Some content =>
          let d' := mk_disk (store d)
                      (<[file_path := RawFile content]> (files d)) in
          (FileResponse file_path (RawFile content), d', [url])
      | None => (JSONResponse 500, d, [url])
      end
  end.

(** The path of the cache file of a URL. *)
Definition cache_path (url : string) : string :=
  Str.path_join MAPS_DIR (cache_filename url).

(** A run of the cache: the calls in order, each with the state of the
    network it meets. Answers the responses, the final disk and the URLs
    fetched on the way. *)
Fixpoint proxy_map_run (calls : list ((string → option string) * string))
    (d : disk) : list response * disk * list string :=
  match calls with
  | [] => ([], d, [])
  | (requests_get, url) :: rest =>
      let '(r, d1, fetched1) := proxy_map requests_get url d in
      let '(rs, d2, fetched2) := proxy_map_run rest d1 in
      (r :: rs, d2, fetched1 ++ fetched2)
  end.

End Server.

Arguments entry F : clear implicits.
Arguments file F : clear implicits.
Arguments disk F : clear implicits.
Arguments response F : clear implicits.

(** ** Vocabulary of the specification *)

Section Vocabulary.

Context {F : Type}.
Variable float : string → option F.

(** The text of one number of a WKT point: not empty, and free of blanks,
    of the closing parenthesis and of the letter that opens [Point(]. Every
    text [float] accepts after [split] is of this kind. *)
Definition wkt_number (s : string) : bool :=
  negb (String.eqb s "")
  && Str.all_chars (λ c, negb (Str.isspace c)) s
  && Str.all_chars (λ c, negb (Ascii.eqb c ")")) s
  && Str.all_chars (λ c, negb (Ascii.eqb c "P")) s.

(** The variables a row must bind for a dataset type. *)
Definition required_fields (dataset_type : string) : list string :=
  ["itemLabel"; "item"]
  ++ (if String.eqb dataset_type "point" then ["coord"]
      else if String.eqb dataset_type "polygon" then ["geoShapeUrl"]
      else []).

Definition has_field (item : row) (var : string) : bool :=
  bool_decide (is_Some (binding_value item var)).

(** The coordinate text parses: stripped of [Point(] and [)], it is two
    blank-separated fields that [float] both accepts. *)
Definition coordinate_parses (wkt : string) : bool :=
  match Str.split (Str.replace ")" "" (Str.replace "Point(" "" wkt)) with
  | [lon; lat] =>
      bool_decide (is_Some (float lon)) && bool_decide (is_Some (float lat))
  | _ => false
  end.

(** A row the normalizer is to keep: every required field is there and,
    for a point dataset, the coordinate parses. *)
Definition row_valid (dataset_type : string) (item : row) : bool :=
  forallb (has_field item) (required_fields dataset_type)
  && (if String.eqb dataset_type "point"
      then from_option coordinate_parses true (binding_value item "coord")
      else true).

(** The response document that holds exactly the given rows. *)
Definition response_of (bindings : list row) : query_result :=
  {[ "results" := {[ "bindings" := bindings ]} ]}.

End Vocabulary.

(** *** The query text *)

(** [sub in s] *)
Definition contains (sub s : string) : Prop :=
  ∃ pre post, s = pre +:+ sub +:+ post.

(** The two clauses a constraint can compile to. *)
Definition positive_triple (prop val : string) : string :=
  "  ?item wdt:" +:+ prop +:+ " wd:" +:+ val +:+ "." +:+ LF.

Definition negated_filter (prop val : string) : string :=
  "  FILTER NOT EXISTS { ?item wdt:" +:+ prop +:+ " wd:" +:+ val +:+ ". }" +:+ LF.

(** The clause of one constraint: the negated filter on the property with
    the marker taken off when the raw property opens with the marker, the
    positive triple otherwise. *)
Definition constraint_clause (c : Constraint.t) : string :=
  match Constraint.property c with
  | String "-" prop => negated_filter prop (Constraint.value c)
  | prop => positive_triple prop (Constraint.value c)
  end.

Definition constraint_clauses (cs : list Constraint.t) : string :=
  foldr (λ c rest, constraint_clause c +:+ rest) "" cs.

(** The geometry clauses of the two dataset types. *)
Definition coord_column : string := "?coord ".
Definition coord_triple : string := "  ?item wdt:P625 ?coord." +:+ LF.
Definition shape_column : string := "?geoShapeUrl ".
Definition shape_triple : string := "  ?item wdt:P3896 ?geoShapeUrl." +:+ LF.

(** A text without a question mark, as every entity and property
    identifier is; a configuration whose texts are all of this kind. *)
Definition plain (s : string) : bool :=
  Str.all_chars (λ c, negb (Ascii.eqb c "?")) s.

Definition plain_config (config : DatasetConfig.t) : bool :=
  plain (DatasetConfig.item_type config)
  && forallb (λ c, plain (Constraint.property c) && plain (Constraint.value c))
       (DatasetConfig.constraints config).

(** A scan for the character [a] directly followed by [b]: [None] once the
    pair is met, otherwise whether the text read so far ends in [a]
    ([armed] says so for the text before [s]). *)
Fixpoint scan2 (a b : ascii) (armed : bool) (s : string) : option bool :=
  match s with
  | EmptyString => Some armed
  | String c t =>
      if armed && Ascii.eqb c b then None else scan2 a b (Ascii.eqb c a) t
  end.

(** The text holds no [a] directly followed by [b], and does not end in
    [a]. *)
Definition quiet (a b : ascii) (s : string) : Prop :=
  scan2 a b false s = Some false.

(** ** The other endpoints *)

Section Endpoints.

Context {F : Type}.
Variable float : string → option F.

(** [POST /api/preview]: the fetch and the normalization of a save, without
    the store. *)
Definition api_preview (fetch_sparql : string → option query_result)
    (config : DatasetConfig.t) : res (list (entry F)) :=
  let query := build_query config in
  match fetch_sparql query with
  | None => Raise (HTTPException 500 "Failed to fetch data from Wikidata")
  | Some raw_data =>
      if decide (raw_data = ∅)
      then Raise (HTTPException 500 "Failed to fetch data from Wikidata")
      else parse_results float raw_data (DatasetConfig.dataset_type config)
  end.

(** What [GET /datasets] answers: the store document, or a status with its
    message. *)
Inductive datasets_response : Type :=
  | DatasetsContent (content : list DatasetEntry.t)
  | DatasetsError (status_code : Z) (message : string).

Definition get_datasets (d : disk F) : datasets_response :=
  match store d with
  | Some (Datasets data) => DatasetsContent data
  | Some (Garbled _) => DatasetsError 500 "Error reading datasets"
  | None => DatasetsError 404 "Datasets not found"
  end.

(** [GET /{path}]: the static file server. [os.path.isfile] holds of the
    paths the disk has a file at. *)
Definition serve_file (path : string) (d : disk F) : response F :=
  let path := if String.eqb path "" then "index.html" else path in
  let file_path := Str.path_join "static" path in
  match files d !! file_path with
  | Some body => FileResponse file_path body
  | None => JSONResponse 404
  end.

(** Every metadata entry of the store has its data file on the disk. *)
Definition entries_backed (d : disk F) : Prop :=
  ∀ e, e ∈ load_datasets d →
    is_Some (files d !! Str.path_join "static" (DatasetEntry.filename e)).

(** The geometry keys a record carries. *)
Definition is_point_record (e : entry F) : Prop :=
  is_Some (entry_lat e) ∧ is_Some (entry_lng e) ∧ entry_geoShapeUrl e = None.

Definition is_shape_record (e : entry F) : Prop :=
  entry_lat e = None ∧ entry_lng e = None ∧ is_Some (entry_geoShapeUrl e).

Definition is_bare_record (e : entry F) : Prop :=
  entry_lat e = None ∧ entry_lng e = None ∧ entry_geoShapeUrl e = None.

End Endpoints.

(** ** Sample inputs *)

Module Sample.

(** A stand-in for [float] that accepts plain decimal literals and keeps
    them as text. *)
Definition decimal_char (c : ascii) : bool :=
  let n := Ascii.nat_of_ascii c in
  ((48 <=? n) && (n <=? 57)) || (n =? 45) || (n =? 46).

Definition literal_float (s : string) : option string :=
  if negb (String.eqb s "") && Str.all_chars decimal_char s
  then Some s else None.

Definition binding (v : string) : gmap string string :=
  {[ "type" := "literal"; "value" := v ]}.

Definition paris : row :=
  {[ "itemLabel" := binding "Paris";
     "item" := binding "http://www.wikidata.org/entity/Q90";
     "coord" := binding "Point(2.3522 48.8566)" ]}.

Definition no_coord : row :=
  {[ "itemLabel" := binding "Atlantis";
     "item" := binding "http://www.wikidata.org/entity/Q42934" ]}.

(** A point configuration whose item type and first constraint carry
    query text of their own. *)
Definition injected : DatasetConfig.t :=
  DatasetConfig.mk
    ("Q515." +:+ LF +:+ "  ?item wdt:P3896 ?geoShapeUrl")
    [Constraint.mk "P17 ?geoShapeUrl" "Q183"]
    "point" 0 true 100.

Definition cities : DatasetConfig.t :=
  DatasetConfig.mk "Q515" [Constraint.mk "-P17" "Q183"] "point" 0 true 100.

Definition regions : DatasetConfig.t :=
  DatasetConfig.mk "Q10864048" [Constraint.mk "P17" "Q183"] "polygon" 0 true 100.

Definition berlin : row :=
  {[ "itemLabel" := binding "Berlin";
     "item" := binding "http://www.wikidata.org/entity/Q64";
     "coord" := binding "Point(13.383333333 52.516666666)" ]}.

(** Endpoints: one that answers the three rows above, one whose only row
    lacks its coordinate. *)
Definition endpoint (query : string) : option query_result :=
  Some (response_of [paris; no_coord; berlin]).

Definition barren_endpoint (query : string) : option query_result :=
  Some (response_of [no_coord]).

Definition request (id : option string) : SaveRequest.t :=
  SaveRequest.mk id cities "Cities outside Germany" "Big cities"
    "Where is {label}?" (Some "").

Definition older_entry : DatasetEntry.t :=
  DatasetEntry.mk "custom_1690000000" "Castles" "Castles of Europe" "point"
    "dataset_1690000000.json" "Where is {label}?" (Some "") cities
    [("label", "label"); ("lat", "lat"); ("lng", "lng")].

Definition stored_entry : DatasetEntry.t :=
  DatasetEntry.mk "custom_1700000000" "Cities" "First draft" "point"
    "dataset_1700000000.json" "Where is {label}?" (Some "") cities
    [("label", "label"); ("lat", "lat"); ("lng", "lng")].

Definition empty_disk : disk string := mk_disk None ∅.

Definition stocked_disk : disk string :=
  mk_disk (Some (Datasets [older_entry; stored_entry]))
    {[ "static/dataset_1690000000.json" := DataFile [];
       "static/dataset_1700000000.json" := DataFile [] ]}.

Definition garbled_disk : disk string :=
  mk_disk (Some (Garbled "[{")) ∅.

(** A stand-in for the MD5 digest, and two states of the network. *)
Definition digest (s : string) : string := s.

Definition online (url : string) : option string := Some "{}".

Definition offline (url : string) : option string := None.

End Sample.

(** ** The query builder of the command-line manager *)

(** [build_query] of [manage_datasets.py]: the same text, from positional
    arguments and constraints given as pairs. *)
Definition cli_add_constraint (sparql : string) (c : string * string) : string :=
  let '(prop, val) := c in
  let is_negative := Str.startswith "-" prop in
  if is_negative then
    let prop := Str.slice_from 1 prop in
    sparql +:+ ("  FILTER NOT EXISTS { ?item wdt:" +:+ prop +:+ " wd:" +:+ val
                +:+ ". }" +:+ LF)
  else
    sparql +:+ ("  ?item wdt:" +:+ prop +:+ " wd:" +:+ val +:+ "." +:+ LF).

Definition cli_build_query (item_type_id : string)
    (constraints : list (string * string)) (dataset_type : string)
    (min_pop : Z) (exclude_dissolved : bool) (limit : Z) : string :=
  let sparql := "SELECT DISTINCT ?item ?itemLabel " in
  let sparql :=
    if String.eqb dataset_type "point" then sparql +:+ "?coord "
    else if String.eqb dataset_type "polygon" then sparql +:+ "?geoShapeUrl "
    else sparql in
  (* We grab sitelinks to sort by popularity *)
  let sparql := sparql +:+ "?sitelinks " in
  let sparql := sparql +:+ ("WHERE {" +:+ LF) in
  (* Main instance type *)
  let sparql :=
    sparql +:+ ("  ?item wdt:P31/wdt:P279* wd:" +:+ item_type_id +:+ "." +:+ LF) in
  (* User Constraints *)
  let sparql := fold_left cli_add_constraint constraints sparql in
  (* FILTER: Population *)
  let sparql :=
    if (0 <? min_pop)%Z then
      sparql +:+ ("  ?item wdt:P1082 ?pop. FILTER(?pop >= "
                  +:+ pretty min_pop +:+ ")." +:+ LF)
    else sparql in
  (* FILTER: Exclude Dissolved (Historical items) *)
  let sparql :=
    if exclude_dissolved then
      sparql +:+ ("  FILTER NOT EXISTS { ?item wdt:P576 ?end. }" +:+ LF)
    else sparql in
  (* Type specific properties *)
  let sparql :=
    if String.eqb dataset_type "point" then
      sparql +:+ ("  ?item wdt:P625 ?coord." +:+ LF)
    else if String.eqb dataset_type "polygon" then
      sparql +:+ ("  ?item wdt:P3896 ?geoShapeUrl." +:+ LF)
    else sparql in
  (* Sitelinks for sorting relevance *)
  let sparql := sparql +:+ ("  ?item wikibase:sitelinks ?sitelinks." +:+ LF) in
  (* Label service *)
  let sparql :=
    sparql +:+ ("  SERVICE wikibase:label { bd:serviceParam wikibase:language "
                +:+ DQUOTE +:+ "[AUTO_LANGUAGE],en" +:+ DQUOTE +:+ ". }" +:+ LF) in
  let sparql := sparql +:+ ("}" +:+ LF) in
  (* ORDER BY Relevance (Sitelinks) *)
  let sparql := sparql +:+ ("ORDER BY DESC(?sitelinks)" +:+ LF) in
  let sparql := sparql +:+ ("LIMIT " +:+ pretty limit) in
  sparql.

(** The constraint of the server for a pair of the manager. *)
Definition constraint_of_pair (c : string * string) : Constraint.t :=
  Constraint.mk c.1 c.2.

(** ** Further sample inputs *)

Module Sample2.

(** An endpoint that is down. *)
Definition dead_endpoint (query : string) : option query_result := None.

(** A row whose coordinate comes without the wrapper. *)
Definition bare_paris : row :=
  {[ "itemLabel" := Sample.binding "Paris";
     "item" := Sample.binding "http://www.wikidata.org/entity/Q90";
     "coord" := Sample.binding "2.3522 48.8566" ]}.

(** A configuration of a dataset type the server does not know. *)
Definition lines : DatasetConfig.t :=
  DatasetConfig.mk "Q4022" [Constraint.mk "P17" "Q183"] "line" 5000 false 20.


(** A disk with a file outside the static directory. *)
Definition host_disk : disk string :=
  mk_disk None {[ "/etc/hostname" := RawFile "pinpoint" ]}.

(** A disk whose cache holds the shape of one URL. *)
Definition cached_disk : disk string :=
  mk_disk None {[ "static/maps/Berlin.map.json" := RawFile "{}" ]}.

End Sample2.

(** ** Store documents that are not lists *)

(** A filename that names a file of its directory and nothing else: not
    empty, not [.] or [..], and without a slash. The minted filenames are
    of this kind; on such names two path strings are the same file exactly
    when they are equal. *)
Definition simple_name (s : string) : bool :=
  negb (String.eqb s "") && negb (String.eqb s ".")
  && negb (String.eqb s "..")
  && Str.all_chars (λ c, negb (Ascii.eqb c "/")) s.

(** What a handler can end with besides an [exn]: the [TypeError] and the
    [AttributeError] that a store document of the wrong shape provokes. *)
Inductive error : Type :=
  | Raised (e : exn)
  | TypeError
  | AttributeError.

Section WideStore.

Context {F : Type}.
Variable float : string → option F.

Inductive outcome : Type :=
  | Answer (r : SaveResponse)
  | Failure (e : error).

(** What [datasets.json] can hold when every JSON text is counted: what a
    [disk] has (nothing, a list of entries, text [json.load] rejects), or
    JSON that [json.load] accepts and that is no list. [empty] says that
    iterating the value gives nothing ([{}] and the empty string); iterating
    any other such value raises [TypeError], at once ([null], a number, a
    boolean) or at [d['id']] on its first item (a key of an object, a
    character of a string). *)
Inductive stored : Type :=
  | Listed (doc : option document)
  | Unlisted (empty : bool).

Record wide_disk : Type := mk_wide_disk {
  held : stored;
  wide_files : gmap string (file F)
}.

(** [api_save] over every store document. Over the documents of a [disk] it
    is [api_save]; over JSON that is no list, [json.load] succeeds, the
    lookup of a carried id finds nothing or raises, and a create writes the
    data file and then fails at [datasets.append]. *)
Definition api_save_wide (fetch_sparql : string → option query_result)
    (now_id now_file : Z) (req : SaveRequest.t) (d : wide_disk)
  : outcome * wide_disk :=
  match held d with
  | Listed doc =>
      let '(r, d') :=
        api_save float fetch_sparql now_id now_file req
          (mk_disk doc (wide_files d)) in
      (match r with Ok a => Answer a | Raise e => Failure (Raised e) end,
       mk_wide_disk (Listed (store d')) (files d'))
  | Unlisted empty =>
      let cfg := SaveRequest.config req in
      (* 1. Fetch Data *)
      let query := build_query cfg in
      match fetch_sparql query with
      | None => (Failure (Raised (HTTPException 500 "Failed to fetch data")), d)
      | Some raw_data =>
      if decide (raw_data = ∅)
      then (Failure (Raised (HTTPException 500 "Failed to fetch data")), d) else
      match parse_results float raw_data (DatasetConfig.dataset_type cfg) with
      | Raise e => (Failure (Raised e), d)
      | Ok [] =>
          (Failure (Raised (HTTPException 400 "No items found to save")), d)
      | Ok parsed_data =>
      (* Determine ID and Filename *)
      if truthy (SaveRequest.id req) then
        (* next((d for d in datasets if d['id'] == dataset_id), None) *)
        if empty
        then (Failure (Raised (HTTPException 404 "Dataset not found")), d)
        else (Failure TypeError, d)
      else
        let filename := "dataset_" +:+ pretty now_file +:+ ".json" in
        (* 2. Save Data File *)
        let filepath := Str.path_join "static" filename in
        let files' := <[filepath := DataFile parsed_data]> (wide_files d) in
        (* 3. datasets.append(new_entry) *)
        (Failure AttributeError, mk_wide_disk (Unlisted empty) files')
      end end
  end.

End WideStore.

Arguments outcome : clear implicits.
Arguments wide_disk F : clear implicits.

(** * Properties *)

(** ** Facts about the string methods *)

Module StrFacts.

Import Str.

(** [String.append] does not unfold under [simpl]; its two equations. *)
Lemma append_nil_l (b : string) : "" +:+ b = b.
Proof. reflexivity. Qed.

Lemma append_cons (x : ascii) (a b : string) :
  String x a +:+ b = String x (a +:+ b).
Proof. reflexivity. Qed.

Ltac unfold_append := rewrite ?append_cons, ?append_nil_l.

Lemma append_assoc (a b c : string) : (a +:+ b) +:+ c = a +:+ (b +:+ c).
Proof. induction a as [|x a IH]; unfold_append; [done | by rewrite IH]. Qed.

Lemma append_nil_r (a : string) : a +:+ "" = a.
Proof. induction a as [|x a IH]; unfold_append; [done | by rewrite IH]. Qed.

Lemma append_length (a b : string) :
  String.length (a +:+ b) = String.length a + String.length b.
Proof. induction a as [|x a IH]; unfold_append; simpl; [done | by rewrite IH]. Qed.

(** Cancellation of a common suffix. *)
Lemma append_inj_r (a b c : string) : a +:+ c = b +:+ c → a = b.
Proof.
  revert b. induction a as [|x a IH]; intros [|y b]; unfold_append; intros H.
  - done.
  - apply (f_equal String.length) in H. simpl in H.
    rewrite append_length in H. lia.
  - apply (f_equal String.length) in H. simpl in H.
    rewrite append_length in H. lia.
  - injection H as -> H. by rewrite (IH b H).
Qed.

Lemma prefix_nil (s : string) : String.prefix "" s = true.
Proof. by destruct s. Qed.

Lemma all_chars_app p a b :
  all_chars p (a +:+ b) = all_chars p a && all_chars p b.
Proof.
  induction a as [|x a IH]; unfold_append; simpl; [done |].
  by rewrite IH, andb_assoc.
Qed.

(** A string without the first character of [old] is left as it is. *)
Lemma replace_absent (o : ascii) (old new s : string) :
  all_chars (λ c, negb (Ascii.eqb c o)) s = true →
  Str.replace_go (String o old) new 0 s = s.
Proof.
  induction s as [|c t IH]; simpl; [done |].
  intros [Hc Ht]%andb_prop.
  apply negb_true_iff, Ascii.eqb_neq in Hc.
  destruct (ascii_dec o c) as [->|_]; [done |].
  by rewrite IH.
Qed.

(** Deleting a one-character [old] passes over a prefix without it. *)
Lemma replace_char_skip (o : ascii) (a rest : string) :
  all_chars (λ c, negb (Ascii.eqb c o)) a = true →
  Str.replace_go (String o "") "" 0 (a +:+ rest)
  = a +:+ Str.replace_go (String o "") "" 0 rest.
Proof.
  induction a as [|c t IH]; unfold_append; simpl; [done |].
  intros [Hc Ht]%andb_prop.
  apply negb_true_iff, Ascii.eqb_neq in Hc.
  destruct (ascii_dec o c) as [->|_]; [done |].
  by rewrite IH.
Qed.

Lemma split_go_run (cur : string) (acc : list string) (a rest : string) :
  all_chars (λ c, negb (Str.isspace c)) a = true →
  Str.split_go cur acc (a +:+ rest) = Str.split_go (cur +:+ a) acc rest.
Proof.
  revert cur. induction a as [|c t IH]; unfold_append; simpl; intros cur.
  - by rewrite append_nil_r.
  - intros [Hc Ht]%andb_prop. apply negb_true_iff in Hc. rewrite Hc.
    rewrite IH by done. by rewrite append_assoc.
Qed.

(** Two blank-free, non-empty runs around one space are the two fields. *)
Lemma split_two (a b : string) :
  a ≠ "" → b ≠ "" →
  all_chars (λ c, negb (Str.isspace c)) a = true →
  all_chars (λ c, negb (Str.isspace c)) b = true →
  Str.split (a +:+ " " +:+ b) = [a; b].
Proof.
  intros Ha Hb Hsa Hsb. unfold Str.split.
  rewrite split_go_run by done. unfold_append. simpl.
  replace b with (b +:+ "") at 1 by apply append_nil_r.
  rewrite split_go_run by done. unfold_append. simpl.
  destruct a; [done |]. destruct b; [done |]. done.
Qed.

End StrFacts.

(** ** The result normalizer *)

Section Normalizer.

Context {F : Type}.
Variable float : string → option F.

Import StrFacts.

(** The loop of [parse_results] keeps, in order, the records of the rows
    whose [try] body does not raise. *)
Lemma parse_loop_omap (ty : string) (bindings : list row) (acc : list (entry F)) :
  fold_left (parse_step float ty) bindings acc
  = acc ++ omap (parse_row float ty) bindings.
Proof.
  revert acc. induction bindings as [|item rest IH]; intros acc; simpl.
  - by rewrite app_nil_r.
  - rewrite IH. unfold parse_step.
    destruct (parse_row float ty item); [by rewrite <- app_assoc | done].
Qed.

Lemma wkt_number_spec (s : string) :
  wkt_number s = true →
  s ≠ ""
  ∧ Str.all_chars (λ c, negb (Str.isspace c)) s = true
  ∧ Str.all_chars (λ c, negb (Ascii.eqb c ")")) s = true
  ∧ Str.all_chars (λ c, negb (Ascii.eqb c "P")) s = true.
Proof.
  unfold wkt_number. rewrite !andb_true_iff, negb_true_iff, String.eqb_neq.
  tauto.
Qed.

Lemma replace_point_head (s : string) :
  Str.replace "Point(" "" ("Point(" +:+ s) = Str.replace "Point(" "" s.
Proof.
  unfold Str.replace. unfold_append. simpl.
  by rewrite prefix_nil.
Qed.

(** Stripping [Point(] and [)] from a WKT point leaves the two numbers
    and the blank between them. *)
Lemma clean_point (lon lat : string) :
  wkt_number lon = true → wkt_number lat = true →
  Str.replace ")" "" (Str.replace "Point(" "" ("Point(" +:+ lon +:+ " " +:+ lat +:+ ")"))
  = lon +:+ " " +:+ lat.
Proof.
  intros (_ & _ & Hp1 & HP1)%wkt_number_spec (_ & _ & Hp2 & HP2)%wkt_number_spec.
  rewrite replace_point_head. unfold Str.replace at 2.
  rewrite replace_absent.
  2:{ rewrite all_chars_app, HP1. unfold_append. simpl.
      by rewrite all_chars_app, HP2. }
  unfold Str.replace.
  rewrite replace_char_skip by done. f_equal.
  change (" " +:+ lat +:+ ")") with (String " " (lat +:+ ")")).
  change (" " +:+ lat) with (String " " lat).
  simpl. f_equal.
  rewrite replace_char_skip by done. by rewrite append_nil_r.
Qed.

(** The [try] body on a row whose coordinate is [Point(<lon> <lat>)]. *)
Lemma parse_row_point_wkt (item : row) (label uri lon lat : string)
    (x y : F) :
  binding_value item "itemLabel" = Some label →
  binding_value item "item" = Some uri →
  binding_value item "coord"
    = Some ("Point(" +:+ lon +:+ " " +:+ lat +:+ ")") →
  wkt_number lon = true → wkt_number lat = true →
  float lon = Some x → float lat = Some y →
  parse_row float "point" item
  = Some (mk_entry label (Str.last_item (Str.split_on "/" uri))
                   (Some y) (Some x) None).
Proof.
  intros Hlabel Huri Hcoord Hlon Hlat Hx Hy.
  unfold parse_row. rewrite Hlabel, Huri. simpl. rewrite Hcoord. simpl.
  rewrite clean_point by done.
  apply wkt_number_spec in Hlon as (Hne1 & Hs1 & _).
  apply wkt_number_spec in Hlat as (Hne2 & Hs2 & _).
  rewrite split_two by done. simpl. by rewrite Hx, Hy.
Qed.

(** C6. The normalizer answers, for a point row whose coordinate is
    [Point(<lon> <lat>)], a record with the first number in [lng] and the
    second in [lat], placed after the records of the rows before it and
    before the records of the rows after it. *)
Theorem point_wkt_lon_then_lat (data : query_result)
    (results : gmap string (list row)) (rows1 rows2 : list row) (item : row)
    (label uri lon lat : string) (x y : F) :
  data !! "results" = Some results →
  results !! "bindings" = Some (rows1 ++ item :: rows2) →
  binding_value item "itemLabel" = Some label →
  binding_value item "item" = Some uri →
  binding_value item "coord"
    = Some ("Point(" +:+ lon +:+ " " +:+ lat +:+ ")") →
  wkt_number lon = true → wkt_number lat = true →
  float lon = Some x → float lat = Some y →
  ∃ out1 out2,
    parse_results float data "point"
    = Ok (out1
          ++ mk_entry label (Str.last_item (Str.split_on "/" uri))
               (Some y) (Some x) None
          :: out2)
    ∧ parse_results float (response_of rows1) "point" = Ok out1
    ∧ parse_results float (response_of rows2) "point" = Ok out2.
Proof.
  intros Hres Hbind Hlabel Huri Hcoord Hlon Hlat Hx Hy.
  exists (omap (parse_row float "point") rows1),
         (omap (parse_row float "point") rows2).
  unfold parse_results, response_of. rewrite Hres, Hbind.
  repeat (rewrite lookup_singleton_eq; simpl).
  rewrite !parse_loop_omap. simpl. split; [| done].
  rewrite omap_app. simpl.
  by rewrite (parse_row_point_wkt item label uri lon lat x y).
Qed.

(** The sample row of the specification, for any [float]. *)
Lemma paris_lng_lat :
  parse_row float "point" Sample.paris
  = match float "2.3522", float "48.8566" with
    | Some lon, Some lat => Some (mk_entry "Paris" "Q90" (Some lat) (Some lon) None)
    | _, _ => None
    end.
Proof.
  vm_compute. destruct (float "2.3522"), (float "48.8566"); reflexivity.
Qed.

Local Ltac dropped :=
  split;
  [ by intros [? ?]
  | intros; destruct_and?; try (by destruct is_Some_None); done ].

Local Ltac kept := split; [intros _; repeat split; eauto | by eauto].

Lemma has_field_true (item : row) (var : string) :
  has_field item var = true ↔ is_Some (binding_value item var).
Proof. unfold has_field. apply bool_decide_eq_true. Qed.

(** The [try] body succeeds exactly on the rows the specification calls
    valid. *)
Lemma parse_row_valid (ty : string) (item : row) :
  is_Some (parse_row float ty item) ↔ row_valid float ty item = true.
Proof.
  unfold parse_row, row_valid, required_fields, coordinate_parses.
  destruct (String.eqb ty "point");
    [| destruct (String.eqb ty "polygon")]; simpl;
    rewrite ?andb_true_iff, ?has_field_true;
    destruct (binding_value item "itemLabel") as [label|]; simpl;
    try dropped;
    destruct (binding_value item "item") as [uri|]; simpl;
    try dropped.
  - destruct (binding_value item "coord") as [wkt|]; simpl; try dropped.
    destruct (Str.split _) as [|a [|b [|c l]]]; simpl; try dropped;
      repeat match goal with
             | |- context [float ?x] => destruct (float x); simpl
             end;
      try dropped; kept.
  - destruct (binding_value item "geoShapeUrl") as [url|]; simpl;
      try dropped; kept.
Qed.

(** C7. The normalizer answers the records of the valid rows, one per
    valid row and in their order; a row that misses a required field or
    whose coordinate does not parse is left out and changes nothing else. *)
Theorem normalizer_keeps_valid_rows (data : query_result)
    (results : gmap string (list row)) (bindings : list row) (ty : string) :
  data !! "results" = Some results →
  results !! "bindings" = Some bindings →
  ∃ out,
    parse_results float data ty = Ok out
    ∧ Forall2 (λ item e, parse_row float ty item = Some e)
              (List.filter (row_valid float ty) bindings) out
    ∧ (∀ item, item ∈ bindings → row_valid float ty item = false →
         parse_row float ty item = None).
Proof.
  intros Hres Hbind. unfold parse_results. rewrite Hres, Hbind.
  rewrite parse_loop_omap. simpl. eexists; split; [done |]. split.
  - clear Hbind. induction bindings as [|item rest IH]; simpl; [constructor |].
    destruct (row_valid float ty item) eqn:Hv.
    + apply parse_row_valid in Hv as [e He]. rewrite He. simpl.
      by constructor.
    + destruct (parse_row float ty item) as [e|] eqn:He; [| exact IH].
      assert (is_Some (parse_row float ty item)) as Hs by (by rewrite He).
      apply parse_row_valid in Hs. congruence.
  - intros item _ Hv.
    destruct (parse_row float ty item) as [e|] eqn:He; [| done].
    assert (is_Some (parse_row float ty item)) as Hs by (by rewrite He).
    apply parse_row_valid in Hs. congruence.
Qed.

(** The example of the specification: of three rows whose second lacks
    the coordinate, exactly the first and the third are answered. *)
Lemma normalizer_three_rows (r1 r2 r3 : row) (e1 e3 : entry F) :
  parse_row float "point" r1 = Some e1 →
  binding_value r2 "coord" = None →
  parse_row float "point" r3 = Some e3 →
  parse_results float (response_of [r1; r2; r3]) "point" = Ok [e1; e3].
Proof.
  intros H1 H2 H3. unfold parse_results, response_of.
  rewrite lookup_singleton_eq, lookup_singleton_eq. simpl.
  unfold parse_step at 3. rewrite H1. simpl.
  unfold parse_step at 2.
  assert (parse_row float "point" r2 = None) as ->.
  { unfold parse_row. rewrite H2.
    destruct (binding_value r2 "itemLabel"); simpl; [| done].
    by destruct (binding_value r2 "item"). }
  unfold parse_step. by rewrite H3.
Qed.

End Normalizer.

(** ** The dataset store *)

Section Store.

Context {F : Type}.
Variable float : string → option F.

Implicit Types (req : SaveRequest.t) (d : disk F) (now_id now_file : Z).
Implicit Types fetch_sparql : string → option query_result.

(** A response that normalizes is not the empty object. *)
Lemma parse_results_Ok_nonempty (raw_data : query_result) (ty : string)
    (parsed : list (entry F)) :
  parse_results float raw_data ty = Ok parsed → raw_data ≠ ∅.
Proof.
  unfold parse_results. intros H ->. by rewrite lookup_empty in H.
Qed.

(** C1. A save whose fetched result normalizes to no record fails with
    status 400 and leaves the store document and every file as they were. *)
Theorem save_without_records_fails fetch_sparql req d now_id now_file
    (raw_data : query_result) :
  fetch_sparql (build_query (SaveRequest.config req)) = Some raw_data →
  parse_results float raw_data
    (DatasetConfig.dataset_type (SaveRequest.config req)) = Ok [] →
  api_save float fetch_sparql now_id now_file req d
  = (Raise (HTTPException 400 "No items found to save"), d).
Proof.
  intros Hfetch Hparse. unfold api_save. rewrite Hfetch.
  destruct (decide (raw_data = ∅)) as [He|_].
  - by destruct (parse_results_Ok_nonempty _ _ _ Hparse).
  - by rewrite Hparse.
Qed.

(** A save past the fetch: the response normalized to some records. *)
Lemma api_save_create fetch_sparql req d now_id now_file (raw_data : query_result)
    (parsed : list (entry F)) :
  fetch_sparql (build_query (SaveRequest.config req)) = Some raw_data →
  parse_results float raw_data
    (DatasetConfig.dataset_type (SaveRequest.config req)) = Ok parsed →
  parsed ≠ [] →
  truthy (SaveRequest.id req) = false →
  api_save float fetch_sparql now_id now_file req d
  = (Ok (mk_SaveResponse "Dataset saved successfully"
           ("custom_" +:+ pretty now_id)),
     mk_disk
       (Some (Datasets
          (load_datasets d
           ++ [make_new_entry req ("custom_" +:+ pretty now_id)
                 ("dataset_" +:+ pretty now_file +:+ ".json")])))
       (<[Str.path_join "static" ("dataset_" +:+ pretty now_file +:+ ".json")
          := DataFile parsed]> (files d))).
Proof.
  intros Hfetch Hparse Hne Hid. unfold api_save. rewrite Hfetch.
  destruct (decide (raw_data = ∅)) as [He|_].
  { by destruct (parse_results_Ok_nonempty _ _ _ Hparse). }
  rewrite Hparse. destruct parsed as [|e rest]; [done |].
  by rewrite Hid.
Qed.

Lemma find_entry_first (rid : string) (before after : list DatasetEntry.t)
    (old : DatasetEntry.t) :
  Forall (λ e, DatasetEntry.id e ≠ rid) before →
  DatasetEntry.id old = rid →
  find_entry rid (before ++ old :: after) = Some old.
Proof.
  intros Hb Ho. unfold find_entry.
  induction Hb as [|e before He Hb IH]; simpl.
  - by rewrite Ho, String.eqb_refl.
  - apply String.eqb_neq in He. by rewrite He.
Qed.



Lemma custom_id_inj (t1 t2 : Z) :
  "custom_" +:+ pretty t1 = "custom_" +:+ pretty t2 ↔ t1 = t2.
Proof.
  split; [| by intros ->].
  intros H. by apply (inj (String.app "custom_")), (inj pretty) in H.
Qed.

Lemma dataset_filename_inj (t1 t2 : Z) :
  "dataset_" +:+ pretty t1 +:+ ".json" = "dataset_" +:+ pretty t2 +:+ ".json"
  ↔ t1 = t2.
Proof.
  split; [| by intros ->].
  intros H. apply (inj (String.app "dataset_")) in H.
  by apply StrFacts.append_inj_r, (inj pretty) in H.
Qed.

(** C3, as the code has it. A create on an absent store leaves a store of
    one entry; a second create appends its entry after the first, which
    stays as it was. The two ids are equal exactly when the two creates
    read the same clock second for the id, and likewise the filenames. *)
Theorem two_creates_append fetch1 fetch2 req1 req2 d
    (t1 f1 t2 f2 : Z) (raw1 raw2 : query_result)
    (parsed1 parsed2 : list (entry F)) :
  store d = None →
  truthy (SaveRequest.id req1) = false →
  truthy (SaveRequest.id req2) = false →
  fetch1 (build_query (SaveRequest.config req1)) = Some raw1 →
  parse_results float raw1
    (DatasetConfig.dataset_type (SaveRequest.config req1)) = Ok parsed1 →
  parsed1 ≠ [] →
  fetch2 (build_query (SaveRequest.config req2)) = Some raw2 →
  parse_results float raw2
    (DatasetConfig.dataset_type (SaveRequest.config req2)) = Ok parsed2 →
  parsed2 ≠ [] →
  ∃ r1 d1 r2 d2 e1 e2,
    api_save float fetch1 t1 f1 req1 d = (Ok r1, d1)
    ∧ store d1 = Some (Datasets [e1])
    ∧ api_save float fetch2 t2 f2 req2 d1 = (Ok r2, d2)
    ∧ store d2 = Some (Datasets [e1; e2])
    ∧ length [e1; e2] = 2
    ∧ (DatasetEntry.id e1 = DatasetEntry.id e2 ↔ t1 = t2)
    ∧ (DatasetEntry.filename e1 = DatasetEntry.filename e2 ↔ f1 = f2).
Proof.
  intros Hstore Hid1 Hid2 Hf1 Hp1 Hn1 Hf2 Hp2 Hn2.
  assert (load_datasets d = []) as Hload.
  { unfold load_datasets. by rewrite Hstore. }
  pose proof (api_save_create fetch1 req1 d t1 f1 raw1 parsed1
                Hf1 Hp1 Hn1 Hid1) as H1.
  rewrite Hload in H1. simpl in H1.
  eexists _, _. do 2 eexists. eexists _, _.
  split; [exact H1 |]. split; [done |].
  split; [eapply api_save_create; eassumption |].
  split; [done |]. split; [done |]. simpl.
  split; [apply custom_id_inj | apply dataset_filename_inj].
Qed.

(** C4. A delete whose id no stored entry has, the store document being
    absent or a list of entries, fails with status 404 and leaves the
    document and every file as they were. *)
Theorem delete_unknown_id_fails (removable : bool) (dreq : DeleteRequest.t) d :
  store d = None
  ∨ (∃ datasets,
       store d = Some (Datasets datasets)
       ∧ Forall (λ e, DatasetEntry.id e ≠ DeleteRequest.id dreq) datasets) →
  ∃ detail,
    api_delete removable dreq d = (Raise (HTTPException 404 detail), d).
Proof.
  unfold api_delete. intros [-> | (datasets & -> & Hno)]; [by eexists |].
  assert (find_entry (DeleteRequest.id dreq) datasets = None) as ->;
    [| by eexists].
  unfold find_entry. induction Hno as [|e rest He _ IH]; simpl; [done |].
  apply String.eqb_neq in He. by rewrite He.
Qed.

(** C5. Over a store document that [json.load] rejects, the load gives
    the empty list without an error, and a create then succeeds and
    rewrites the document as the list of the one new entry. *)
Theorem create_over_garbled_store fetch_sparql req d now_id now_file
    (text : string) (raw_data : query_result) (parsed : list (entry F)) :
  store d = Some (Garbled text) →
  truthy (SaveRequest.id req) = false →
  fetch_sparql (build_query (SaveRequest.config req)) = Some raw_data →
  parse_results float raw_data
    (DatasetConfig.dataset_type (SaveRequest.config req)) = Ok parsed →
  parsed ≠ [] →
  load_datasets d = []
  ∧ ∃ d',
      api_save float fetch_sparql now_id now_file req d
      = (Ok (mk_SaveResponse "Dataset saved successfully"
               ("custom_" +:+ pretty now_id)), d')
      ∧ store d'
        = Some (Datasets
            [make_new_entry req ("custom_" +:+ pretty now_id)
               ("dataset_" +:+ pretty now_file +:+ ".json")]).
Proof.
  intros Hstore Hid Hfetch Hparse Hne.
  assert (load_datasets d = []) as Hload.
  { unfold load_datasets. by rewrite Hstore. }
  split; [done |]. eexists. split; [eapply api_save_create; eassumption |].
  simpl. by rewrite Hload.
Qed.

End Store.

(** ** The query builder *)

Section QueryBuilder.

Import StrFacts.

(** *** Shape of the compiled text *)

Lemma constraint_clause_startswith (c : Constraint.t) :
  constraint_clause c
  = if Str.startswith "-" (Constraint.property c)
    then negated_filter (Str.slice_from 1 (Constraint.property c))
           (Constraint.value c)
    else positive_triple (Constraint.property c) (Constraint.value c).
Proof.
  unfold constraint_clause, Str.startswith.
  destruct (Constraint.property c) as [|x prop]; [done |].
  simpl. destruct (ascii_dec "-" x) as [<-|Hx].
  - by rewrite prefix_nil.
  - destruct x as [[] [] [] [] [] [] [] []]; try done.
Qed.

Lemma add_constraint_clause (sparql : string) (c : Constraint.t) :
  add_constraint sparql c = sparql +:+ constraint_clause c.
Proof.
  unfold add_constraint. rewrite constraint_clause_startswith.
  by destruct (Str.startswith "-" (Constraint.property c)).
Qed.

Lemma fold_constraints (cs : list Constraint.t) (sparql : string) :
  fold_left add_constraint cs sparql = sparql +:+ constraint_clauses cs.
Proof.
  revert sparql. induction cs as [|c cs IH]; intros sparql; simpl.
  - by rewrite append_nil_r.
  - by rewrite IH, add_constraint_clause, append_assoc.
Qed.

Lemma tail_base (p c : string) : p +:+ c = p +:+ c +:+ "".
Proof. by rewrite append_nil_r. Qed.

Lemma tail_step (l p c t x : string) :
  l = p +:+ c +:+ t → l +:+ x = p +:+ c +:+ (t +:+ x).
Proof. intros ->. by rewrite !append_assoc. Qed.

(** C9. The compiled text is a head, the clauses of the constraints in
    list order, and a tail; head and tail do not depend on the
    constraints. The clause of a constraint whose property starts with the
    marker is the negated-existence filter on the property without the
    marker and on the value, and nothing else; the clause of any other
    constraint is the positive triple. *)
Theorem constraints_compile_to_clauses (item_type dataset_type : string)
    (min_pop limit : Z) (exclude_dissolved : bool) :
  (∃ head tail, ∀ cs,
     build_query (DatasetConfig.mk item_type cs dataset_type min_pop
                    exclude_dissolved limit)
     = head +:+ constraint_clauses cs +:+ tail)
  ∧ (∀ prop val,
       constraint_clause (Constraint.mk (String "-" prop) val)
       = "  FILTER NOT EXISTS { ?item wdt:" +:+ prop +:+ " wd:" +:+ val
         +:+ ". }" +:+ LF)
  ∧ (∀ c,
       constraint_clause c
       = if Str.startswith "-" (Constraint.property c)
         then negated_filter (Str.slice_from 1 (Constraint.property c))
                (Constraint.value c)
         else "  ?item wdt:" +:+ Constraint.property c +:+ " wd:"
              +:+ Constraint.value c +:+ "." +:+ LF).
Proof.
  split; [| split; [done | apply constraint_clause_startswith]].
  destruct (String.eqb dataset_type "point") eqn:Hpoint,
           (String.eqb dataset_type "polygon") eqn:Hpolygon,
           exclude_dissolved, (0 <? min_pop)%Z eqn:Hpop;
    eexists _, _; intros cs; unfold build_query; cbv zeta;
    cbn [DatasetConfig.item_type DatasetConfig.constraints
         DatasetConfig.dataset_type DatasetConfig.min_pop
         DatasetConfig.exclude_dissolved DatasetConfig.limit];
    rewrite ?Hpoint, ?Hpolygon, ?Hpop; cbv beta match;
    rewrite fold_constraints;
    repeat first [apply tail_base | eapply tail_step].
Qed.

(** *** Occurrences in the compiled text *)

Lemma contains_refl (s : string) : contains s s.
Proof. exists "", "". by rewrite append_nil_r. Qed.

Lemma contains_app_l (sub s1 s2 : string) :
  contains sub s1 → contains sub (s1 +:+ s2).
Proof.
  intros (pre & post & ->). exists pre, (post +:+ s2).
  by rewrite !append_assoc.
Qed.

Lemma contains_app_r (sub s1 s2 : string) :
  contains sub s2 → contains sub (s1 +:+ s2).
Proof.
  intros (pre & post & ->). exists (s1 +:+ pre), post.
  by rewrite !append_assoc.
Qed.

Lemma scan2_app (a b : ascii) (armed : bool) (s1 s2 : string) :
  scan2 a b armed (s1 +:+ s2)
  = match scan2 a b armed s1 with
    | Some armed' => scan2 a b armed' s2
    | None => None
    end.
Proof.
  revert armed. induction s1 as [|c t IH]; intros armed; unfold_append;
    simpl; [done |].
  by destruct (armed && Ascii.eqb c b).
Qed.

(** A text that holds the pair wherever the scan starts makes every text
    around it hold the pair. *)
Lemma scan2_contains (a b : ascii) (sub s : string) :
  (∀ armed, scan2 a b armed sub = None) →
  contains sub s → ∀ armed, scan2 a b armed s = None.
Proof.
  intros Hsub (pre & post & ->) armed.
  rewrite scan2_app. destruct (scan2 a b armed pre); [| done].
  by rewrite scan2_app, Hsub.
Qed.

Lemma quiet_not_contains (a b : ascii) (sub s : string) :
  (∀ armed, scan2 a b armed sub = None) →
  quiet a b s → ¬ contains sub s.
Proof.
  intros Hsub Hq Hc. unfold quiet in Hq.
  by rewrite (scan2_contains a b sub s Hsub Hc) in Hq.
Qed.

Lemma quiet_app (a b : ascii) (s1 s2 : string) :
  quiet a b s1 → quiet a b s2 → quiet a b (s1 +:+ s2).
Proof. unfold quiet. intros H1 H2. by rewrite scan2_app, H1. Qed.

Lemma quiet_plain (b : ascii) (s : string) :
  plain s = true → quiet "?" b s.
Proof.
  unfold plain, quiet. induction s as [|c t IH]; simpl; [done |].
  intros [Hc Ht]%andb_prop. apply negb_true_iff in Hc. rewrite Hc. auto.
Qed.

Lemma plain_pretty_N_go (x : N) (s : string) :
  plain s = true → plain (pretty_N_go x s) = true.
Proof.
  revert s. induction (N.lt_wf_0 x) as [x _ IH]; intros s Hs.
  assert (x = 0 ∨ 0 < x)%N as [->|Hx] by lia; [done |].
  rewrite pretty_N_go_step by done. apply IH; [by apply N.div_lt |].
  unfold plain. simpl. fold (plain s). rewrite Hs, andb_true_r.
  unfold pretty_N_char. by repeat case_match.
Qed.

Lemma plain_pretty_Z (z : Z) : plain (pretty z) = true.
Proof.
  assert (∀ p : positive, plain (pretty p) = true) as Hpos.
  { intros p. unfold pretty, pretty_positive, pretty, pretty_N.
    case_decide; [done |]. by apply plain_pretty_N_go. }
  destruct z as [|p|p]; [done | apply Hpos |].
  unfold pretty, pretty_Z. unfold plain. unfold_append. simpl.
  apply Hpos.
Qed.

Lemma constraint_clause_cases (c : Constraint.t) :
  (∃ prop, Constraint.property c = String "-" prop
           ∧ constraint_clause c = negated_filter prop (Constraint.value c))
  ∨ constraint_clause c
    = positive_triple (Constraint.property c) (Constraint.value c).
Proof.
  unfold constraint_clause.
  destruct (Constraint.property c) as [|x prop]; [by right |].
  destruct (ascii_dec x "-") as [->|Hx]; [left; by eexists |].
  right. destruct x as [[] [] [] [] [] [] [] []]; done.
Qed.

Lemma quiet_clauses (b : ascii) (cs : list Constraint.t) :
  b = "g"%char ∨ b = "c"%char →
  forallb (λ c, plain (Constraint.property c) && plain (Constraint.value c))
    cs = true →
  quiet "?" b (constraint_clauses cs).
Proof.
  intros Hb. induction cs as [|c cs IH]; simpl; [done |].
  intros [[Hp Hv]%andb_prop Hcs]%andb_prop.
  apply quiet_app; [| by apply IH].
  destruct (constraint_clause_cases c) as [(prop & Hprop & ->) | ->].
  - rewrite Hprop in Hp. apply andb_prop in Hp as [_ Hp].
    unfold negated_filter.
    destruct Hb as [-> | ->];
      repeat apply quiet_app; first [by apply quiet_plain | reflexivity].
  - unfold positive_triple.
    destruct Hb as [-> | ->];
      repeat apply quiet_app; first [by apply quiet_plain | reflexivity].
Qed.

Lemma prefix_append (sub s : string) :
  String.prefix sub s = true → ∃ post, s = sub +:+ post.
Proof.
  revert s. induction sub as [|x sub IH]; intros s; [by exists s |].
  destruct s as [|y s]; simpl; [done |].
  destruct (ascii_dec x y) as [<-|_]; [| done].
  intros [post ->]%IH. by exists post.
Qed.

Lemma occurs_contains (sub s : string) :
  Str.occurs sub s = true → contains sub s.
Proof.
  induction s as [|c t IH]; cbn [Str.occurs].
  - intros [[post ->]%prefix_append | ?]%orb_prop; [| done].
    by exists "", post.
  - intros [[post ->]%prefix_append | (pre & post & ->)%IH]%orb_prop.
    + by exists "", post.
    + by exists (String c pre), post.
Qed.

(** Search for an occurrence along the appends that build a text. *)
Ltac find_sub :=
  solve [ apply contains_refl
        | apply contains_app_r; find_sub
        | apply contains_app_l; find_sub ].

Ltac quiet_leaves :=
  repeat apply quiet_app;
  first [ reflexivity
        | apply quiet_plain; first [assumption | apply plain_pretty_Z]
        | apply quiet_clauses; [tauto | assumption] ].

Ltac open_query :=
  unfold build_query; cbv zeta;
  cbn [DatasetConfig.item_type DatasetConfig.constraints
       DatasetConfig.dataset_type DatasetConfig.min_pop
       DatasetConfig.exclude_dissolved DatasetConfig.limit];
  rewrite ?String.eqb_refl;
  change (String.eqb "polygon" "point") with false;
  cbv beta match; rewrite fold_constraints.

(** C8, as the code has it. When the item type and the constraint texts
    hold no question mark, the query of a point configuration holds the
    coordinate column and the coordinate triple and neither the shape
    column nor the shape triple; the query of a polygon configuration
    holds the shape clauses and neither coordinate clause. *)
Theorem geometry_clause_by_type (config : DatasetConfig.t) :
  plain_config config = true →
  (DatasetConfig.dataset_type config = "point" →
     contains coord_column (build_query config)
     ∧ contains coord_triple (build_query config)
     ∧ ¬ contains shape_column (build_query config)
     ∧ ¬ contains shape_triple (build_query config))
  ∧ (DatasetConfig.dataset_type config = "polygon" →
       contains shape_column (build_query config)
       ∧ contains shape_triple (build_query config)
       ∧ ¬ contains coord_column (build_query config)
       ∧ ¬ contains coord_triple (build_query config)).
Proof.
  destruct config as [item_type cs ty min_pop excl limit].
  unfold plain_config. simpl. intros [Hit Hcs]%andb_prop.
  split; intros ->.
  - assert (quiet "?" "g"
              (build_query
                 (DatasetConfig.mk item_type cs "point" min_pop excl limit)))
      as Hq.
    { open_query. destruct excl, (0 <? min_pop)%Z; quiet_leaves. }
    split; [| split; [| split]].
    + open_query. unfold coord_column.
      destruct excl, (0 <? min_pop)%Z; find_sub.
    + open_query. unfold coord_triple.
      destruct excl, (0 <? min_pop)%Z; find_sub.
    + by apply (quiet_not_contains "?" "g"); [intros [] |].
    + by apply (quiet_not_contains "?" "g"); [intros [] |].
  - assert (quiet "?" "c"
              (build_query
                 (DatasetConfig.mk item_type cs "polygon" min_pop excl limit)))
      as Hq.
    { open_query. destruct excl, (0 <? min_pop)%Z; quiet_leaves. }
    split; [| split; [| split]].
    + open_query. unfold shape_column.
      destruct excl, (0 <? min_pop)%Z; find_sub.
    + open_query. unfold shape_triple.
      destruct excl, (0 <? min_pop)%Z; find_sub.
    + by apply (quiet_not_contains "?" "c"); [intros [] |].
    + by apply (quiet_not_contains "?" "c"); [intros [] |].
Qed.

(** Without the condition on the texts the property fails: a point
    configuration whose texts carry the shape clauses compiles to a query
    that holds them. *)
Lemma injected_point_query_holds_shape_clauses :
  DatasetConfig.dataset_type Sample.injected = "point"
  ∧ contains shape_column (build_query Sample.injected)
  ∧ contains shape_triple (build_query Sample.injected).
Proof.
  split; [reflexivity |]. split; apply occurs_contains; vm_compute; reflexivity.
Qed.

End QueryBuilder.

(** ** The map shape cache *)

Section ShapeCache.

Context {F : Type}.
Variable md5_hexdigest : string → string.

Implicit Types (d : disk F) (requests_get : string → option string).

(** A call on a URL whose cache file is there answers the file and
    fetches nothing. *)
Lemma proxy_map_hit requests_get (url : string) d (body : file F) :
  files d !! cache_path md5_hexdigest url = Some body →
  proxy_map md5_hexdigest requests_get url d = (FileResponse (cache_path md5_hexdigest url) body, d, []).
Proof.
  unfold proxy_map, cache_path, cache_filename.
  simpl. by intros ->.
Qed.

(** A call on a URL without a cache file fetches the URL once and, when
    the fetch succeeds, stores the body under the cache path. *)
Lemma proxy_map_miss requests_get (url content : string) d :
  files d !! cache_path md5_hexdigest url = None →
  requests_get (Str.replace "+" " " url) = Some content →
  proxy_map md5_hexdigest requests_get url d
  = (FileResponse (cache_path md5_hexdigest url) (RawFile content),
     mk_disk (store d) (<[cache_path md5_hexdigest url := RawFile content]> (files d)),
     [Str.replace "+" " " url]).
Proof.
  unfold proxy_map, cache_path, cache_filename.
  simpl. by intros -> ->.
Qed.

(** No call changes or removes a file that is there. *)
Lemma proxy_map_keeps requests_get (url path : string) d (body : file F) :
  files d !! path = Some body →
  files (proxy_map md5_hexdigest requests_get url d).1.2 !! path = Some body.
Proof.
  intros Hfile. unfold proxy_map.
  destruct (files d !! Str.path_join _ _) as [b|] eqn:Hcache; simpl; [done |].
  destruct (requests_get _); simpl; [| done].
  rewrite lookup_insert_ne; [done |]. intros <-. congruence.
Qed.

Lemma proxy_map_run_keeps (calls : list ((string → option string) * string))
    (path : string) d (body : file F) :
  files d !! path = Some body →
  files (proxy_map_run md5_hexdigest calls d).1.2 !! path = Some body.
Proof.
  revert d. induction calls as [|[requests_get url] rest IH]; intros d Hfile;
    simpl; [done |].
  pose proof (proxy_map_keeps requests_get url path d body Hfile) as Hk.
  destruct (proxy_map md5_hexdigest requests_get url d) as [[r d1] fetched1].
  specialize (IH d1 Hk).
  by destruct (proxy_map_run md5_hexdigest rest d1) as [[rs d2] fetched2].
Qed.

(** C10. URLs that are equal once [+] is read as a blank have the same
    cache filename; and when the disk left by a first call holds the cache
    file of a URL, every later call with such a URL, whatever calls come
    in between, answers that file and fetches nothing. *)
Theorem shape_cache_key_and_hit (url url' : string) d
    (first later : string → option string)
    (calls : list ((string → option string) * string)) (body : file F) :
  Str.replace "+" " " url = Str.replace "+" " " url' →
  files (proxy_map md5_hexdigest first url d).1.2 !! cache_path md5_hexdigest url = Some body →
  cache_filename md5_hexdigest url = cache_filename md5_hexdigest url'
  ∧ (let d1 := (proxy_map md5_hexdigest first url d).1.2 in
     let d2 := (proxy_map_run md5_hexdigest calls d1).1.2 in
     proxy_map md5_hexdigest later url' d2 = (FileResponse (cache_path md5_hexdigest url) body, d2, [])).
Proof.
  intros Hnorm Hstored.
  assert (cache_filename md5_hexdigest url = cache_filename md5_hexdigest url') as Hkey.
  { unfold cache_filename. by rewrite Hnorm. }
  split; [done |]. simpl.
  assert (cache_path md5_hexdigest url = cache_path md5_hexdigest url') as Hpath.
  { unfold cache_path. by rewrite Hkey. }
  rewrite Hpath. apply proxy_map_hit. rewrite <- Hpath.
  by apply proxy_map_run_keeps.
Qed.

End ShapeCache.

(** ** The properties on the sample inputs *)

Section Samples.

Import Sample.

(** The query of the sample configuration with a marked constraint. *)
Lemma cities_query :
  build_query cities
  = "SELECT DISTINCT ?item ?itemLabel ?coord ?sitelinks WHERE {" +:+ LF
    +:+ "  ?item wdt:P31/wdt:P279* wd:Q515." +:+ LF
    +:+ "  FILTER NOT EXISTS { ?item wdt:P17 wd:Q183. }" +:+ LF
    +:+ "  FILTER NOT EXISTS { ?item wdt:P576 ?end. }" +:+ LF
    +:+ "  ?item wdt:P625 ?coord." +:+ LF
    +:+ "  ?item wikibase:sitelinks ?sitelinks." +:+ LF
    +:+ "  SERVICE wikibase:label { bd:serviceParam wikibase:language "
    +:+ DQUOTE +:+ "[AUTO_LANGUAGE],en" +:+ DQUOTE +:+ ". }" +:+ LF
    +:+ "}" +:+ LF
    +:+ "ORDER BY DESC(?sitelinks)" +:+ LF
    +:+ "LIMIT 100".
Proof. vm_compute. reflexivity. Qed.

(** The three sample rows normalize to the first and the third. *)
Lemma three_rows_two_records :
  parse_results literal_float (response_of [paris; no_coord; berlin]) "point"
  = Ok [mk_entry "Paris" "Q90" (Some "48.8566") (Some "2.3522") None;
        mk_entry "Berlin" "Q64" (Some "52.516666666") (Some "13.383333333")
          None].
Proof. vm_compute. reflexivity. Qed.

Lemma save_without_records_fails_witness :
  api_save literal_float barren_endpoint 1700000000 1700000000
    (request None) stocked_disk
  = (Raise (HTTPException 400 "No items found to save"), stocked_disk).
Proof.
  apply (save_without_records_fails literal_float barren_endpoint
           (request None) stocked_disk 1700000000 1700000000
           (response_of [no_coord])); reflexivity.
Defined.


Lemma two_creates_append_witness :
  ∃ r1 d1 r2 d2 e1 e2,
    api_save literal_float endpoint 1700000000 1700000001 (request None)
      empty_disk = (Ok r1, d1)
    ∧ store d1 = Some (Datasets [e1])
    ∧ api_save literal_float endpoint 1700000007 1700000008 (request (Some ""))
        d1 = (Ok r2, d2)
    ∧ store d2 = Some (Datasets [e1; e2])
    ∧ length [e1; e2] = 2
    ∧ (DatasetEntry.id e1 = DatasetEntry.id e2 ↔ 1700000000%Z = 1700000007%Z)
    ∧ (DatasetEntry.filename e1 = DatasetEntry.filename e2
       ↔ 1700000001%Z = 1700000008%Z).
Proof.
  apply (two_creates_append literal_float endpoint endpoint (request None)
           (request (Some "")) empty_disk 1700000000 1700000001 1700000007
           1700000008 (response_of [paris; no_coord; berlin])
           (response_of [paris; no_coord; berlin])
           [mk_entry "Paris" "Q90" (Some "48.8566") (Some "2.3522") None;
            mk_entry "Berlin" "Q64" (Some "52.516666666")
              (Some "13.383333333") None]
           [mk_entry "Paris" "Q90" (Some "48.8566") (Some "2.3522") None;
            mk_entry "Berlin" "Q64" (Some "52.516666666")
              (Some "13.383333333") None]);
    first [reflexivity | discriminate | (vm_compute; reflexivity)].
Defined.

(** Two creates that read the same clock second mint the same id and the
    same filename: the store then holds two entries that share both. *)
Lemma same_second_creates_collide :
  ∃ r1 d1 r2 d2 e1 e2,
    api_save literal_float endpoint 1700000000 1700000000 (request None)
      empty_disk = (Ok r1, d1)
    ∧ api_save literal_float endpoint 1700000000 1700000000 (request None)
        d1 = (Ok r2, d2)
    ∧ store d2 = Some (Datasets [e1; e2])
    ∧ DatasetEntry.id e1 = DatasetEntry.id e2
    ∧ DatasetEntry.filename e1 = DatasetEntry.filename e2.
Proof.
  destruct (api_save literal_float endpoint 1700000000 1700000000
              (request None) empty_disk) as [r1 d1] eqn:H1.
  vm_compute in H1. injection H1 as <- <-.
  do 6 eexists. split; [reflexivity |].
  split; [vm_compute; reflexivity |].
  split; [reflexivity |]. split; reflexivity.
Qed.

Lemma delete_unknown_id_fails_witness :
  ∃ detail,
    api_delete true (DeleteRequest.mk "custom_1") stocked_disk
    = (Raise (HTTPException 404 detail), stocked_disk).
Proof.
  apply (delete_unknown_id_fails true (DeleteRequest.mk "custom_1")
           stocked_disk).
  right. exists [older_entry; stored_entry].
  split; [reflexivity |]. repeat constructor; discriminate.
Defined.

Lemma create_over_garbled_store_witness :
  load_datasets garbled_disk = []
  ∧ ∃ d',
      api_save literal_float endpoint 1700000000 1700000001 (request None)
        garbled_disk
      = (Ok (mk_SaveResponse "Dataset saved successfully"
               ("custom_" +:+ pretty 1700000000%Z)), d')
      ∧ store d'
        = Some (Datasets
            [make_new_entry (request None) ("custom_" +:+ pretty 1700000000%Z)
               ("dataset_" +:+ pretty 1700000001%Z +:+ ".json")]).
Proof.
  apply (create_over_garbled_store literal_float endpoint (request None)
           garbled_disk 1700000000 1700000001 "[{"
           (response_of [paris; no_coord; berlin])
           [mk_entry "Paris" "Q90" (Some "48.8566") (Some "2.3522") None;
            mk_entry "Berlin" "Q64" (Some "52.516666666")
              (Some "13.383333333") None]);
    first [reflexivity | discriminate | (vm_compute; reflexivity)].
Defined.

Lemma point_wkt_lon_then_lat_witness :
  ∃ out1 out2,
    parse_results literal_float (response_of ([] ++ paris :: [no_coord; berlin]))
      "point"
    = Ok (out1
          ++ mk_entry "Paris"
               (Str.last_item
                  (Str.split_on "/" "http://www.wikidata.org/entity/Q90"))
               (Some "48.8566") (Some "2.3522") None
          :: out2)
    ∧ parse_results literal_float (response_of []) "point" = Ok out1
    ∧ parse_results literal_float (response_of [no_coord; berlin]) "point"
      = Ok out2.
Proof.
  apply (point_wkt_lon_then_lat literal_float
           (response_of ([] ++ paris :: [no_coord; berlin]))
           {[ "bindings" := [] ++ paris :: [no_coord; berlin] ]}
           [] [no_coord; berlin] paris "Paris"
           "http://www.wikidata.org/entity/Q90" "2.3522" "48.8566"
           "2.3522" "48.8566"); reflexivity.
Defined.

Lemma normalizer_keeps_valid_rows_witness :
  ∃ out,
    parse_results literal_float (response_of [paris; no_coord; berlin])
      "point" = Ok out
    ∧ Forall2 (λ item e, parse_row literal_float "point" item = Some e)
        (List.filter (row_valid literal_float "point")
           [paris; no_coord; berlin]) out
    ∧ (∀ item, item ∈ [paris; no_coord; berlin] →
         row_valid literal_float "point" item = false →
         parse_row literal_float "point" item = None).
Proof.
  apply (normalizer_keeps_valid_rows literal_float
           (response_of [paris; no_coord; berlin])
           {[ "bindings" := [paris; no_coord; berlin] ]}
           [paris; no_coord; berlin] "point"); reflexivity.
Defined.

Lemma geometry_clause_by_type_witness :
  plain_config regions = true
  ∧ contains shape_column (build_query regions)
  ∧ contains shape_triple (build_query regions)
  ∧ ¬ contains coord_column (build_query regions)
  ∧ ¬ contains coord_triple (build_query regions).
Proof.
  split; [reflexivity |].
  apply (geometry_clause_by_type regions); reflexivity.
Defined.

Lemma shape_cache_key_and_hit_witness :
  cache_filename digest "https://maps.example/Berlin+Mitte.map"
  = cache_filename digest "https://maps.example/Berlin Mitte.map"
  ∧ (let d1 := (proxy_map digest online
                  "https://maps.example/Berlin+Mitte.map" empty_disk).1.2 in
     let d2 := (proxy_map_run digest
                  [(online, "https://maps.example/Bonn.map")] d1).1.2 in
     proxy_map digest offline "https://maps.example/Berlin Mitte.map" d2
     = (FileResponse
          (cache_path digest "https://maps.example/Berlin+Mitte.map")
          (RawFile "{}"), d2, [])).
Proof.
  apply (shape_cache_key_and_hit digest
           "https://maps.example/Berlin+Mitte.map"
           "https://maps.example/Berlin Mitte.map" empty_disk online offline
           [(online, "https://maps.example/Bonn.map")] (RawFile "{}"));
    vm_compute; reflexivity.
Defined.

End Samples.

(** * Further properties of the handlers *)

(** ** Saving, deleting and listing *)

Section StoreEffects.

Context {F : Type}.
Variable float : string → option F.

Implicit Types (req : SaveRequest.t) (d : disk F) (now_id now_file : Z).
Implicit Types fetch_sparql : string → option query_result.

(** What a save that answers has done. *)
Lemma api_save_Ok_inv fetch_sparql now_id now_file req d
    (r : SaveResponse) (d' : disk F) :
  api_save float fetch_sparql now_id now_file req d = (Ok r, d') →
  ∃ parsed dataset_id filename datasets',
    api_preview float fetch_sparql (SaveRequest.config req) = Ok parsed
    ∧ parsed ≠ []
    ∧ r = mk_SaveResponse "Dataset saved successfully" dataset_id
    ∧ d' = mk_disk (Some (Datasets datasets'))
             (<[Str.path_join "static" filename := DataFile parsed]> (files d))
    ∧ ((truthy (SaveRequest.id req) = false
        ∧ dataset_id = "custom_" +:+ pretty now_id
        ∧ filename = "dataset_" +:+ pretty now_file +:+ ".json"
        ∧ datasets'
          = load_datasets d ++ [make_new_entry req dataset_id filename])
       ∨ (truthy (SaveRequest.id req) = true
          ∧ SaveRequest.id req = Some dataset_id
          ∧ (∃ old, find_entry dataset_id (load_datasets d) = Some old
                    ∧ filename = DatasetEntry.filename old)
          ∧ datasets'
            = replace_existing dataset_id
                (make_new_entry req dataset_id filename) (load_datasets d))).
Proof.
  unfold api_save, api_preview.
  destruct (fetch_sparql _) as [raw_data|]; [| done].
  destruct (decide (raw_data = ∅)); [done |].
  destruct (parse_results _ _ _) as [[|e parsed]|]; [done | | done].
  destruct (truthy (SaveRequest.id req)) eqn:Hid.
  - destruct (SaveRequest.id req) as [rid|] eqn:Hreq; [| done]. simpl.
    destruct (find_entry rid (load_datasets d)) as [old|] eqn:Hfind; [| done].
    intros [= <- <-]. eexists _, _, _, _.
    repeat split; [done | right]. repeat split; eauto.
  - intros [= <- <-]. eexists _, _, _, _.
    repeat split; [done | left]. repeat split; eauto.
Qed.

(** Over the documents of a [disk], a save that fails leaves the store
    document and every file as they were. *)
Lemma api_save_Raise_keeps_disk fetch_sparql now_id now_file req d
    (e : exn) (d' : disk F) :
  api_save float fetch_sparql now_id now_file req d = (Raise e, d') → d' = d.
Proof.
  unfold api_save.
  destruct (fetch_sparql _) as [raw_data|]; [| by intros [= _ <-]].
  destruct (decide (raw_data = ∅)); [by intros [= _ <-] |].
  destruct (parse_results _ _ _) as [[|r parsed]|];
    [by intros [= _ <-] | | by intros [= _ <-]].
  destruct (truthy (SaveRequest.id req)); [| done].
  destruct (find_entry _ _); [done | by intros [= _ <-]].
Qed.

Lemma find_entry_None (rid : string) (datasets : list DatasetEntry.t) :
  Forall (λ e, DatasetEntry.id e ≠ rid) datasets ↔
  find_entry rid datasets = None.
Proof.
  unfold find_entry. induction datasets as [|e rest IH]; simpl.
  - split; [done | constructor].
  - destruct (String.eqb_spec (DatasetEntry.id e) rid) as [Heq|Hne].
    + split; [| done]. by intros [? _]%Forall_cons.
    + rewrite <- IH. split; [by intros [_ ?]%Forall_cons | by constructor].
Qed.

(** X2. A save that carries an id no stored entry has, the fetch having
    given records, fails with status 404 and writes nothing; so it does over
    an absent or rejected store document. *)
Theorem save_unknown_id_not_found fetch_sparql now_id now_file req d
    (raw_data : query_result) (parsed : list (entry F)) (rid : string) :
  fetch_sparql (build_query (SaveRequest.config req)) = Some raw_data →
  parse_results float raw_data
    (DatasetConfig.dataset_type (SaveRequest.config req)) = Ok parsed →
  parsed ≠ [] →
  SaveRequest.id req = Some rid → rid ≠ "" →
  Forall (λ e, DatasetEntry.id e ≠ rid) (load_datasets d) →
  api_save float fetch_sparql now_id now_file req d
  = (Raise (HTTPException 404 "Dataset not found"), d).
Proof.
  intros Hfetch Hparse Hne Hid Hrid Hno. unfold api_save. rewrite Hfetch.
  destruct (decide (raw_data = ∅)) as [He|_].
  { by destruct (parse_results_Ok_nonempty float _ _ _ Hparse). }
  rewrite Hparse. destruct parsed as [|e rest]; [done |].
  rewrite Hid. simpl. apply String.eqb_neq in Hrid. rewrite Hrid. simpl.
  apply find_entry_None in Hno. by rewrite Hno.
Qed.

Lemma elem_of_replace_existing (rid : string) (new_entry e : DatasetEntry.t)
    (datasets : list DatasetEntry.t) :
  e ∈ replace_existing rid new_entry datasets → e = new_entry ∨ e ∈ datasets.
Proof.
  induction datasets as [|x rest IH]; simpl; [by right |].
  destruct (String.eqb (DatasetEntry.id x) rid).
  - intros [->|?]%elem_of_cons; [by left | right; by apply elem_of_cons; right].
  - intros [->|[->|?]%IH]%elem_of_cons.
    + right. by apply elem_of_cons; left.
    + by left.
    + right. by apply elem_of_cons; right.
Qed.


(** X3. A successful save keeps the store backed: when every stored entry
    had its data file before, every entry of the new store, the saved one
    included, has its data file after. *)
Theorem save_keeps_entries_backed fetch_sparql now_id now_file req d
    (r : SaveResponse) (d' : disk F) :
  entries_backed d →
  api_save float fetch_sparql now_id now_file req d = (Ok r, d') →
  entries_backed d'.
Proof.
  intros Hbacked Hsave.
  apply api_save_Ok_inv in Hsave
    as (parsed & dataset_id & filename & datasets' & _ & _ & _ & -> & Hcase).
  assert (∀ e, e ∈ datasets' →
            e = make_new_entry req dataset_id filename ∨ e ∈ load_datasets d)
    as Hin.
  { destruct Hcase as [(_ & _ & _ & ->) | (_ & _ & _ & ->)]; intros e.
    - intros [?|?%list_elem_of_singleton]%elem_of_app; [by right | by left].
    - apply elem_of_replace_existing. }
  intros e He. simpl in *. apply Hin in He as [-> | He].
  - simpl. rewrite lookup_insert_eq. by eexists.
  - destruct (Hbacked e He) as [body Hbody].
    destruct (decide (Str.path_join "static" filename
                      = Str.path_join "static" (DatasetEntry.filename e)))
      as [<-|Hne].
    + rewrite lookup_insert_eq. by eexists.
    + rewrite lookup_insert_ne by done. by eexists.
Qed.


Lemma find_entry_filter_out (rid : string) (datasets : list DatasetEntry.t) :
  find_entry rid
    (List.filter (λ e, negb (String.eqb (DatasetEntry.id e) rid)) datasets)
  = None.
Proof.
  apply find_entry_None. apply Forall_forall. intros e He.
  apply list_elem_of_In, filter_In in He as [_ He].
  by apply negb_true_iff, String.eqb_neq in He.
Qed.

Lemma filter_out_absent (rid : string) (datasets : list DatasetEntry.t) :
  Forall (λ e, DatasetEntry.id e ≠ rid) datasets →
  List.filter (λ e, negb (String.eqb (DatasetEntry.id e) rid)) datasets
  = datasets.
Proof.
  induction 1 as [|e rest He _ IH]; simpl; [done |].
  apply String.eqb_neq in He. by rewrite He, IH.
Qed.

(** X5. A delete that succeeded removed every entry with the id: a second
    delete of the same id fails with status 404 and changes nothing. *)
Theorem delete_twice_not_found (removable removable' : bool)
    (dreq : DeleteRequest.t) d (msg : string) (d' : disk F) :
  api_delete removable dreq d = (Ok msg, d') →
  api_delete removable' dreq d'
  = (Raise (HTTPException 404 "Dataset not found"), d').
Proof.
  unfold api_delete at 1.
  destruct (store d) as [[datasets|text]|]; [| done | done].
  destruct (find_entry _ datasets) as [target|]; [| done].
  intros [= _ <-]. unfold api_delete. simpl.
  by rewrite find_entry_filter_out.
Qed.

(** X6. A create followed by the delete of the id it returned gives back
    the disk it started from, when the minted id and the minted filename
    were not in use and the data file can be removed. *)
Theorem create_then_delete_restores fetch_sparql now_id now_file req d
    (datasets : list DatasetEntry.t) (r : SaveResponse) (d1 : disk F) :
  store d = Some (Datasets datasets) →
  Forall (λ e, DatasetEntry.id e ≠ "custom_" +:+ pretty now_id) datasets →
  files d !! Str.path_join "static" ("dataset_" +:+ pretty now_file +:+ ".json")
    = None →
  truthy (SaveRequest.id req) = false →
  api_save float fetch_sparql now_id now_file req d = (Ok r, d1) →
  api_delete true (DeleteRequest.mk (saved_id r)) d1 = (Ok "Dataset deleted", d).
Proof.
  intros Hstore Hfresh Hfile Hid Hsave.
  apply api_save_Ok_inv in Hsave
    as (parsed & dataset_id & filename & datasets' & _ & _ & -> & -> & Hcase).
  destruct Hcase as [(_ & -> & -> & ->) | (Hid' & _)]; [| congruence].
  unfold load_datasets. rewrite Hstore.
  unfold api_delete. simpl.
  assert (find_entry ("custom_" +:+ pretty now_id)
            (datasets ++ [make_new_entry req ("custom_" +:+ pretty now_id)
                            ("dataset_" +:+ pretty now_file +:+ ".json")])
          = Some (make_new_entry req ("custom_" +:+ pretty now_id)
                    ("dataset_" +:+ pretty now_file +:+ ".json"))) as ->.
  { by apply find_entry_first. }
  simpl. rewrite lookup_insert_eq.
  rewrite List.filter_app, filter_out_absent by done. simpl.
  rewrite String.eqb_refl. simpl. rewrite app_nil_r.
  rewrite delete_insert_eq, delete_id by done.
  destruct d as [st fs]. simpl in *. by rewrite Hstore.
Qed.

(** X7. When the data file cannot be removed the delete succeeds all the
    same: the entry leaves the store and its file stays on the disk. *)
Theorem delete_unremovable_leaves_file (dreq : DeleteRequest.t) d
    (datasets : list DatasetEntry.t) (target : DatasetEntry.t) :
  store d = Some (Datasets datasets) →
  find_entry (DeleteRequest.id dreq) datasets = Some target →
  ∃ d',
    api_delete false dreq d = (Ok "Dataset deleted", d')
    ∧ files d' = files d
    ∧ Forall (λ e, DatasetEntry.id e ≠ DeleteRequest.id dreq) (load_datasets d').
Proof.
  intros Hstore Hfind. unfold api_delete. rewrite Hstore, Hfind.
  eexists. split; [done |]. simpl. split.
  - by destruct (files d !! _).
  - apply find_entry_None, find_entry_filter_out.
Qed.

Lemma path_join_static_inj (a b : string) :
  Str.path_join "static" a = Str.path_join "static" b → a = b.
Proof.
  unfold Str.path_join. simpl.
  destruct (String.prefix "/" a) eqn:Ha, (String.prefix "/" b) eqn:Hb;
    StrFacts.unfold_append.
  - done.
  - apply prefix_append in Ha as [post ->]. by StrFacts.unfold_append.
  - apply prefix_append in Hb as [post ->]. by StrFacts.unfold_append.
  - by intros [= ->].
Qed.

(** X8. A successful delete keeps the store backed when the stored
    filenames are simple names and no entry with another id has the filename
    of the deleted one. *)
Theorem delete_keeps_entries_backed (removable : bool) (dreq : DeleteRequest.t)
    d (target : DatasetEntry.t) (msg : string) (d' : disk F) :
  entries_backed d →
  find_entry (DeleteRequest.id dreq) (load_datasets d) = Some target →
  (∀ e, e ∈ load_datasets d → simple_name (DatasetEntry.filename e) = true) →
  (∀ e, e ∈ load_datasets d → DatasetEntry.id e ≠ DeleteRequest.id dreq →
     DatasetEntry.filename e ≠ DatasetEntry.filename target) →
  api_delete removable dreq d = (Ok msg, d') →
  entries_backed d'.
Proof.
  intros Hbacked Hfind _ Hdistinct. unfold api_delete.
  unfold entries_backed, load_datasets in *.
  destruct (store d) as [[datasets|text]|]; [| done | done].
  rewrite Hfind. intros [= _ <-]. simpl. intros e He.
  apply list_elem_of_In, filter_In in He as [He Hid].
  apply list_elem_of_In in He. apply negb_true_iff, String.eqb_neq in Hid.
  assert (Str.path_join "static" (DatasetEntry.filename target)
          ≠ Str.path_join "static" (DatasetEntry.filename e)) as Hpath.
  { intros Heq%path_join_static_inj. by destruct (Hdistinct e He Hid). }
  destruct (files d !! Str.path_join "static" (DatasetEntry.filename target));
    [destruct removable |]; rewrite ?lookup_delete_ne by done; by apply Hbacked.
Qed.


End StoreEffects.

(** ** Records of the normalizer *)

Section Records.

Context {F : Type}.
Variable float : string → option F.

(** The geometry keys a kept row gets, by dataset type. *)
Lemma parse_row_geometry (ty : string) (item : row) (e : entry F) :
  parse_row float ty item = Some e →
  (ty = "point" → is_point_record e)
  ∧ (ty = "polygon" → is_shape_record e)
  ∧ (ty ≠ "point" → ty ≠ "polygon" → is_bare_record e).
Proof.
  unfold parse_row, is_point_record, is_shape_record, is_bare_record.
  destruct (binding_value item "itemLabel") as [label|]; [| done].
  destruct (binding_value item "item") as [uri|]; [| done]. simpl.
  destruct (String.eqb_spec ty "point") as [->|Hpoint].
  - destruct (binding_value item "coord") as [wkt|]; [| done]. simpl.
    destruct (float <$> Str.split _) as [|[lon|] [|[lat|] [|? ?]]]; try done.
    intros [= <-]. simpl. repeat split; by eauto.
  - destruct (String.eqb_spec ty "polygon") as [->|Hpolygon].
    + destruct (binding_value item "geoShapeUrl") as [url|]; [| done].
      intros [= <-]. simpl. repeat split; by eauto.
    + intros [= <-]. simpl. repeat split; done.
Qed.

Lemma parse_results_elem (data : query_result) (ty : string)
    (out : list (entry F)) (e : entry F) :
  parse_results float data ty = Ok out → e ∈ out →
  ∃ item, parse_row float ty item = Some e.
Proof.
  unfold parse_results.
  destruct (data !! "results") as [results|]; [| done].
  destruct (results !! "bindings") as [bindings|]; [| done].
  rewrite parse_loop_omap. simpl. intros [= <-].
  intros (item & _ & He)%list_elem_of_omap. by exists item.
Qed.

(** X10. Every record the normalizer answers has the geometry keys of the
    dataset type and no other: [lat] and [lng] for a point dataset,
    [geoShapeUrl] for a polygon dataset, none for any other type. *)
Theorem records_match_dataset_type (data : query_result) (ty : string)
    (out : list (entry F)) (e : entry F) :
  parse_results float data ty = Ok out → e ∈ out →
  (ty = "point" → is_point_record e)
  ∧ (ty = "polygon" → is_shape_record e)
  ∧ (ty ≠ "point" → ty ≠ "polygon" → is_bare_record e).
Proof.
  intros Hparse He.
  destruct (parse_results_elem data ty out e Hparse He) as [item Hrow].
  by eapply parse_row_geometry.
Qed.

Lemma split_on_nonempty (sep : ascii) (s : string) : Str.split_on sep s ≠ [].
Proof.
  destruct s as [|c t]; simpl; [done |].
  destruct (Ascii.eqb c sep); [done |]. by destruct (Str.split_on sep t).
Qed.

Lemma split_on_free (sep : ascii) (s : string) :
  Str.all_chars (λ c, negb (Ascii.eqb c sep)) s = true →
  Str.split_on sep s = [s].
Proof.
  induction s as [|c t IH]; simpl; [done |].
  intros [Hc Ht]%andb_prop. apply negb_true_iff in Hc.
  by rewrite Hc, IH.
Qed.

Lemma split_on_singleton (sep : ascii) (s h : string) :
  Str.split_on sep s = [h] → s = h.
Proof.
  revert h. induction s as [|c t IH]; intros h; simpl; [by intros [= <-] |].
  pose proof (split_on_nonempty sep t) as Hne.
  destruct (Ascii.eqb c sep).
  - by destruct (Str.split_on sep t).
  - destruct (Str.split_on sep t) as [|h' r] eqn:Hsplit; [done |].
    intros [= <- ->]. by rewrite (IH h').
Qed.

(** The last field of a split is what follows the last separator. *)
Lemma last_field_suffix (sep : ascii) (s : string) :
  ∃ pre,
    s = pre +:+ Str.last_item (Str.split_on sep s)
    ∧ Str.all_chars (λ c, negb (Ascii.eqb c sep))
        (Str.last_item (Str.split_on sep s)) = true
    ∧ (pre = "" ∨ ∃ p, pre = p +:+ String sep "").
Proof.
  unfold Str.last_item.
  induction s as [|c t (pre & Ht & Hfree & Hpre)].
  { exists "". split; [done |]. split; [done | by left]. }
  pose proof (split_on_nonempty sep t) as Hne.
  cbn [Str.split_on]. destruct (Ascii.eqb_spec c sep) as [->|Hc].
  - destruct (Str.split_on sep t) as [|h r] eqn:Hsplit; [done |].
    exists (String sep pre).
    split; [StrFacts.unfold_append; f_equal; exact Ht |].
    split; [exact Hfree |]. right.
    destruct Hpre as [-> | [p ->]]; [by exists "" | by exists (String sep p)].
  - destruct (Str.split_on sep t) as [|h [|h2 r]] eqn:Hsplit; [done | |].
    + apply split_on_singleton in Hsplit as ->.
      exists "". split; [done |]. split; [| by left].
      cbn [List.last Str.all_chars]. apply Ascii.eqb_neq in Hc.
      rewrite Hc. exact Hfree.
    + exists (String c pre).
      split; [StrFacts.unfold_append; f_equal; exact Ht |].
      split; [exact Hfree |]. right.
      destruct Hpre as [-> | [p ->]]; [| by exists (String c p)].
      exfalso. rewrite StrFacts.append_nil_l in Ht.
      rewrite Ht in Hsplit at 1. by rewrite split_on_free in Hsplit.
Qed.

(** X11. The [id] of a record is what follows the last slash of the item
    URI (the whole URI when it has none), so it holds no slash; the [label]
    is the label value as it came. *)
Theorem record_id_is_last_segment (ty : string) (item : row) (e : entry F) :
  parse_row float ty item = Some e →
  ∃ uri pre,
    binding_value item "item" = Some uri
    ∧ uri = pre +:+ entry_id e
    ∧ Str.all_chars (λ c, negb (Ascii.eqb c "/")) (entry_id e) = true
    ∧ (pre = "" ∨ ∃ p, pre = p +:+ "/")
    ∧ binding_value item "itemLabel" = Some (entry_label e).
Proof.
  unfold parse_row.
  destruct (binding_value item "itemLabel") as [label|]; [| done].
  destruct (binding_value item "item") as [uri|]; [| done]. simpl.
  destruct (last_field_suffix "/" uri) as (pre & Huri & Hfree & Hpre).
  assert (entry_id e = Str.last_item (Str.split_on "/" uri)
          ∧ entry_label e = label →
          ∃ uri0 pre0, Some uri = Some uri0 ∧ uri0 = pre0 +:+ entry_id e
            ∧ Str.all_chars (λ c, negb (Ascii.eqb c "/")) (entry_id e) = true
            ∧ (pre0 = "" ∨ ∃ p, pre0 = p +:+ "/")
            ∧ Some label = Some (entry_label e)) as Hgoal.
  { intros [-> ->]. by exists uri, pre. }
  destruct (String.eqb ty "point").
  - destruct (binding_value item "coord") as [wkt|]; [| done]. simpl.
    destruct (float <$> Str.split _) as [|[lon|] [|[lat|] [|? ?]]]; try done.
    intros [= <-]. by apply Hgoal.
  - destruct (String.eqb ty "polygon").
    + destruct (binding_value item "geoShapeUrl") as [url|]; [| done].
      intros [= <-]. by apply Hgoal.
    + intros [= <-]. by apply Hgoal.
Qed.

(** X12. Normalizing the rows of two batches one after the other gives the
    records of the first followed by the records of the second. *)
Theorem normalizer_concatenates (ty : string) (rows1 rows2 : list row)
    (out1 out2 : list (entry F)) :
  parse_results float (response_of rows1) ty = Ok out1 →
  parse_results float (response_of rows2) ty = Ok out2 →
  parse_results float (response_of (rows1 ++ rows2)) ty = Ok (out1 ++ out2).
Proof.
  unfold parse_results, response_of.
  repeat (rewrite lookup_singleton_eq; simpl).
  rewrite !parse_loop_omap. simpl. intros [= <-] [= <-].
  by rewrite omap_app.
Qed.

(** X13. The wrapper of the coordinate is not checked: a coordinate text
    that is just the two numbers gives the record the wrapped text gives. *)
Theorem unwrapped_coordinate_accepted (item : row) (label uri lon lat : string)
    (x y : F) :
  binding_value item "itemLabel" = Some label →
  binding_value item "item" = Some uri →
  binding_value item "coord" = Some (lon +:+ " " +:+ lat) →
  wkt_number lon = true → wkt_number lat = true →
  float lon = Some x → float lat = Some y →
  parse_row float "point" item
  = Some (mk_entry label (Str.last_item (Str.split_on "/" uri))
                   (Some y) (Some x) None).
Proof.
  intros Hlabel Huri Hcoord Hlon Hlat Hx Hy.
  unfold parse_row. rewrite Hlabel, Huri. simpl. rewrite Hcoord. simpl.
  apply (wkt_number_spec float) in Hlon as (Hne1 & Hs1 & Hp1 & HP1).
  apply (wkt_number_spec float) in Hlat as (Hne2 & Hs2 & Hp2 & HP2).
  unfold Str.replace.
  rewrite (StrFacts.replace_absent "P" "oint(" "" (lon +:+ " " +:+ lat)).
  2:{ rewrite StrFacts.all_chars_app, HP1. StrFacts.unfold_append. simpl.
      by rewrite HP2. }
  rewrite (StrFacts.replace_absent ")" "" "" (lon +:+ " " +:+ lat)).
  2:{ rewrite StrFacts.all_chars_app, Hp1. StrFacts.unfold_append. simpl.
      by rewrite Hp2. }
  fold (Str.split (lon +:+ " " +:+ lat)).
  rewrite StrFacts.split_two by done. simpl. by rewrite Hx, Hy.
Qed.

End Records.

(** ** Filters and geometry of the compiled query *)

Section QueryFilters.

Import StrFacts.

Lemma quiet_clauses_filters (b : ascii) (cs : list Constraint.t) :
  b = "p"%char ∨ b = "e"%char →
  forallb (λ c, plain (Constraint.property c) && plain (Constraint.value c))
    cs = true →
  quiet "?" b (constraint_clauses cs).
Proof.
  intros Hb. induction cs as [|c cs IH]; simpl; [done |].
  intros [[Hp Hv]%andb_prop Hcs]%andb_prop.
  apply quiet_app; [| by apply IH].
  destruct (constraint_clause_cases c) as [(prop & Hprop & ->) | ->].
  - rewrite Hprop in Hp. apply andb_prop in Hp as [_ Hp].
    unfold negated_filter.
    destruct Hb as [-> | ->];
      repeat apply quiet_app; first [by apply quiet_plain | reflexivity].
  - unfold positive_triple.
    destruct Hb as [-> | ->];
      repeat apply quiet_app; first [by apply quiet_plain | reflexivity].
Qed.

Ltac unfold_query :=
  unfold build_query; cbv zeta;
  cbn [DatasetConfig.item_type DatasetConfig.constraints
       DatasetConfig.dataset_type DatasetConfig.min_pop
       DatasetConfig.exclude_dissolved DatasetConfig.limit];
  repeat match goal with
         | H : String.eqb _ _ = _ |- _ => rewrite H
         | H : Z.ltb _ _ = _ |- _ => rewrite H
         end;
  cbv beta match; rewrite fold_constraints.

Ltac locate :=
  solve [ apply contains_refl
        | apply occurs_contains; reflexivity
        | apply contains_app_r; locate
        | apply contains_app_l; locate ].

Ltac all_quiet :=
  repeat apply quiet_app;
  first [ reflexivity
        | apply quiet_plain; first [assumption | apply plain_pretty_Z]
        | apply quiet_clauses; [tauto | assumption]
        | apply quiet_clauses_filters; [tauto | assumption] ].

(** X14. The population filter is in the query exactly when [min_pop] is
    positive, and the filter on dissolved items exactly when
    [exclude_dissolved] is set (the texts of the configuration holding no
    question mark). *)
Theorem filters_present_iff_enabled (config : DatasetConfig.t) :
  plain_config config = true →
  (contains "?pop" (build_query config)
   ↔ (0 < DatasetConfig.min_pop config)%Z)
  ∧ (contains "?end" (build_query config)
     ↔ DatasetConfig.exclude_dissolved config = true).
Proof.
  destruct config as [item_type cs ty min_pop excl limit].
  unfold plain_config. simpl. intros [Hit Hcs]%andb_prop.
  destruct (String.eqb ty "point") eqn:Hpoint,
           (String.eqb ty "polygon") eqn:Hpolygon,
           excl, (0 <? min_pop)%Z eqn:Hpop;
    (split; split;
     [ intros Hc;
       first [ by apply Z.ltb_lt
             | exfalso; revert Hc; apply (quiet_not_contains "?" "p");
               [by intros [] | unfold_query; all_quiet] ]
     | intros Hen;
       first [ (apply Z.ltb_lt in Hen; congruence)
             | unfold_query; locate ]
     | intros Hc;
       first [ done
             | exfalso; revert Hc; apply (quiet_not_contains "?" "e");
               [by intros [] | unfold_query; all_quiet] ]
     | intros Hen; first [ done | unfold_query; locate ] ]).
Qed.

(** X15. For a dataset type that is neither [point] nor [polygon] the
    query binds no geometry at all: it holds neither [?coord] nor
    [?geoShapeUrl]. *)
Theorem other_type_binds_no_geometry (config : DatasetConfig.t) :
  plain_config config = true →
  DatasetConfig.dataset_type config ≠ "point" →
  DatasetConfig.dataset_type config ≠ "polygon" →
  ¬ contains "?coord" (build_query config)
  ∧ ¬ contains "?geoShapeUrl" (build_query config).
Proof.
  destruct config as [item_type cs ty min_pop excl limit].
  unfold plain_config. simpl.
  intros [Hit Hcs]%andb_prop Hpoint%String.eqb_neq Hpolygon%String.eqb_neq.
  split.
  - apply (quiet_not_contains "?" "c"); [by intros [] |].
    destruct excl, (0 <? min_pop)%Z eqn:Hpop; unfold_query; all_quiet.
  - apply (quiet_not_contains "?" "g"); [by intros [] |].
    destruct excl, (0 <? min_pop)%Z eqn:Hpop; unfold_query; all_quiet.
Qed.

End QueryFilters.

(** ** Saved metadata against saved records *)

Section SavedKeys.

Context {F : Type}.
Variable float : string → option F.



(** X17. After a successful create the static file server answers the
    minted filename with the records just saved. *)
Theorem created_file_is_served
    (fetch_sparql : string → option query_result) (now_id now_file : Z)
    (req : SaveRequest.t) (d : disk F) (r : SaveResponse) (d' : disk F) :
  truthy (SaveRequest.id req) = false →
  api_save float fetch_sparql now_id now_file req d = (Ok r, d') →
  ∃ parsed,
    api_preview float fetch_sparql (SaveRequest.config req) = Ok parsed
    ∧ serve_file ("dataset_" +:+ pretty now_file +:+ ".json") d'
      = FileResponse ("static/dataset_" +:+ pretty now_file +:+ ".json")
          (DataFile parsed).
Proof.
  intros Hid Hsave.
  apply api_save_Ok_inv in Hsave
    as (parsed & dataset_id & filename & datasets' & Hprev & _ & _ & -> & Hcase).
  destruct Hcase as [(_ & _ & -> & _) | (Hid' & _)]; [| congruence].
  exists parsed. split; [done |].
  unfold serve_file. simpl. by rewrite lookup_insert_eq.
Qed.

(** X18. A request path that starts with a slash is served as it stands:
    [os.path.join] drops the [static] directory, so the file answered is
    the one at that absolute path. *)
Theorem serve_file_absolute_path (path : string) (d : disk F) (body : file F) :
  String.prefix "/" path = true →
  files d !! path = Some body →
  serve_file path d = FileResponse path body.
Proof.
  intros Habs Hfile. unfold serve_file, Str.path_join.
  destruct (String.eqb_spec path "") as [->|_]; [done |].
  by rewrite Habs, Hfile.
Qed.

End SavedKeys.

(** ** Fetches and files of the map shape cache *)

Section CacheEffects.

Context {F : Type}.
Variable md5_hexdigest : string → string.

Implicit Types (d : disk F) (requests_get : string → option string).

(** X19. A fetch that fails is not cached: the call answers status 500 and
    leaves the disk as it was, and the next call with the URL fetches it
    again and, the fetch succeeding, stores and answers the body. *)
Theorem failed_fetch_not_cached (url content : string) d
    (down up : string → option string) :
  files d !! cache_path md5_hexdigest url = None →
  down (Str.replace "+" " " url) = None →
  up (Str.replace "+" " " url) = Some content →
  proxy_map md5_hexdigest down url d
  = (JSONResponse 500, d, [Str.replace "+" " " url])
  ∧ proxy_map md5_hexdigest up url
      (proxy_map md5_hexdigest down url d).1.2
    = (FileResponse (cache_path md5_hexdigest url) (RawFile content),
       mk_disk (store d)
         (<[cache_path md5_hexdigest url := RawFile content]> (files d)),
       [Str.replace "+" " " url]).
Proof.
  intros Hmiss Hdown Hup.
  assert (proxy_map md5_hexdigest down url d
          = (JSONResponse 500, d, [Str.replace "+" " " url])) as Hfail.
  { unfold proxy_map, cache_path, cache_filename in *. simpl.
    by rewrite Hmiss, Hdown. }
  split; [done |]. rewrite Hfail. simpl. by apply proxy_map_miss.
Qed.

Lemma proxy_map_store requests_get (url : string) d :
  store (proxy_map md5_hexdigest requests_get url d).1.2 = store d.
Proof.
  unfold proxy_map. destruct (files d !! _); [done |].
  by destruct (requests_get _).
Qed.

Lemma proxy_map_fetches_once requests_get (url : string) d :
  length (proxy_map md5_hexdigest requests_get url d).2 ≤ 1.
Proof.
  unfold proxy_map. destruct (files d !! _); simpl; [lia |].
  destruct (requests_get _); simpl; lia.
Qed.

(** X20. A run of cache calls never touches the store document, never
    changes or removes a file that is there, and fetches at most once per
    call. *)
Theorem cache_run_frame (calls : list ((string → option string) * string)) d :
  store (proxy_map_run md5_hexdigest calls d).1.2 = store d
  ∧ (∀ path body, files d !! path = Some body →
       files (proxy_map_run md5_hexdigest calls d).1.2 !! path = Some body)
  ∧ length (proxy_map_run md5_hexdigest calls d).2 ≤ length calls.
Proof.
  split; [| split].
  - revert d. induction calls as [|[requests_get url] rest IH]; intros d;
      simpl; [done |].
    pose proof (proxy_map_store requests_get url d) as Hs.
    destruct (proxy_map md5_hexdigest requests_get url d) as [[r d1] f1].
    specialize (IH d1).
    destruct (proxy_map_run md5_hexdigest rest d1) as [[rs d2] f2].
    simpl in *. congruence.
  - intros path body. apply proxy_map_run_keeps.
  - revert d. induction calls as [|[requests_get url] rest IH]; intros d;
      simpl; [done |].
    pose proof (proxy_map_fetches_once requests_get url d) as Hs.
    destruct (proxy_map md5_hexdigest requests_get url d) as [[r d1] f1].
    specialize (IH d1).
    destruct (proxy_map_run md5_hexdigest rest d1) as [[rs d2] f2].
    simpl in *. rewrite length_app. lia.
Qed.

(** X21. Any number of calls with one URL, on a network that answers it,
    fetch the URL exactly once when its cache file was not there, and every
    call answers the body of that one fetch. *)
Theorem repeated_calls_fetch_once (n : nat) (url content : string) d
    requests_get :
  files d !! cache_path md5_hexdigest url = None →
  requests_get (Str.replace "+" " " url) = Some content →
  (proxy_map_run md5_hexdigest (replicate (S n) (requests_get, url)) d).2
  = [Str.replace "+" " " url]
  ∧ (proxy_map_run md5_hexdigest (replicate (S n) (requests_get, url)) d).1.1
    = replicate (S n)
        (FileResponse (cache_path md5_hexdigest url) (RawFile content)).
Proof.
  intros Hmiss Hget.
  assert (∀ m d1, files d1 !! cache_path md5_hexdigest url
                  = Some (RawFile content) →
            proxy_map_run md5_hexdigest (replicate m (requests_get, url)) d1
            = (replicate m (FileResponse (cache_path md5_hexdigest url)
                              (RawFile content)), d1, [])) as Hhits.
  { induction m as [|m IH]; intros d1 Hd1; simpl; [done |].
    rewrite (proxy_map_hit md5_hexdigest requests_get url d1 _ Hd1).
    by rewrite (IH d1 Hd1). }
  cbn [replicate proxy_map_run].
  rewrite (proxy_map_miss md5_hexdigest requests_get url content d Hmiss Hget).
  rewrite Hhits; [by rewrite app_nil_r |]. simpl. by rewrite lookup_insert_eq.
Qed.

(** X22. The static file server answers a cached shape under
    [maps/<cache filename>], when the digest does not start with a slash
    (a hexadecimal digest never does). *)
Theorem cached_shape_is_served (url : string) d (body : file F) :
  String.prefix "/" (cache_filename md5_hexdigest url) = false →
  files d !! cache_path md5_hexdigest url = Some body →
  serve_file ("maps/" +:+ cache_filename md5_hexdigest url) d
  = FileResponse (cache_path md5_hexdigest url) body.
Proof.
  intros Hrel Hfile. unfold serve_file.
  assert (Str.path_join "static" ("maps/" +:+ cache_filename md5_hexdigest url)
          = cache_path md5_hexdigest url) as Hpath.
  { unfold cache_path, Str.path_join. rewrite Hrel. reflexivity. }
  change (String.eqb ("maps/" +:+ cache_filename md5_hexdigest url) "")
    with false. cbv beta match zeta. by rewrite Hpath, Hfile.
Qed.

End CacheEffects.

(** ** The two query builders *)

Section TwoBuilders.

Lemma fold_cli_constraints (cs : list (string * string)) (sparql : string) :
  fold_left cli_add_constraint cs sparql
  = fold_left add_constraint (constraint_of_pair <$> cs) sparql.
Proof.
  revert sparql. induction cs as [|[prop val] cs IH]; intros sparql; simpl;
    [done |].
  by rewrite IH.
Qed.

(** X23. The query builder of the command-line manager and the one of the
    server compile the same configuration to the same text. *)
Theorem builders_agree (item_type_id : string)
    (constraints : list (string * string)) (dataset_type : string)
    (min_pop limit : Z) (exclude_dissolved : bool) :
  cli_build_query item_type_id constraints dataset_type min_pop
    exclude_dissolved limit
  = build_query
      (DatasetConfig.mk item_type_id (constraint_of_pair <$> constraints)
         dataset_type min_pop exclude_dissolved limit).
Proof.
  unfold cli_build_query, build_query. cbv zeta.
  cbn [DatasetConfig.item_type DatasetConfig.constraints
       DatasetConfig.dataset_type DatasetConfig.min_pop
       DatasetConfig.exclude_dissolved DatasetConfig.limit].
  by rewrite fold_cli_constraints.
Qed.

End TwoBuilders.

(** ** A deleted dataset *)

Section Deleted.

Context {F : Type}.

(** X24. After a delete that could remove the data file of an entry whose
    filename is a simple name, the listing has no entry with the id and the
    static file server no longer answers that filename. *)
Theorem deleted_dataset_is_gone (dreq : DeleteRequest.t) (d : disk F)
    (datasets : list DatasetEntry.t) (target : DatasetEntry.t) :
  store d = Some (Datasets datasets) →
  find_entry (DeleteRequest.id dreq) datasets = Some target →
  simple_name (DatasetEntry.filename target) = true →
  ∃ d' content,
    api_delete true dreq d = (Ok "Dataset deleted", d')
    ∧ get_datasets d' = DatasetsContent content
    ∧ Forall (λ e, DatasetEntry.id e ≠ DeleteRequest.id dreq) content
    ∧ serve_file (DatasetEntry.filename target) d' = JSONResponse 404.
Proof.
  intros Hstore Hfind Hsimple.
  assert (DatasetEntry.filename target ≠ "") as Hname.
  { intros Heq. by rewrite Heq in Hsimple. }
  unfold api_delete. rewrite Hstore, Hfind.
  eexists _, _. split; [done |]. split; [done |]. split.
  - apply Forall_forall. intros e He.
    apply list_elem_of_In, filter_In in He as [_ He].
    by apply negb_true_iff, String.eqb_neq in He.
  - unfold serve_file. apply String.eqb_neq in Hname. rewrite Hname. simpl.
    destruct (files d !! Str.path_join "static" (DatasetEntry.filename target))
      eqn:Hfile.
    + by rewrite lookup_delete_eq.
    + by rewrite Hfile.
Qed.

End Deleted.

(** ** The further properties on the sample inputs *)

Section FurtherSamples.

Import Sample Sample2.

Lemma stocked_disk_backed : entries_backed stocked_disk.
Proof.
  intros e He. simpl in He.
  apply elem_of_cons in He as [-> | He];
    [| apply list_elem_of_singleton in He as ->]; by eexists.
Qed.

Lemma save_unknown_id_not_found_witness :
  api_save literal_float endpoint 1700000100 1700000100
    (request (Some "custom_1")) stocked_disk
  = (Raise (HTTPException 404 "Dataset not found"), stocked_disk).
Proof.
  apply (save_unknown_id_not_found literal_float endpoint 1700000100
           1700000100 (request (Some "custom_1")) stocked_disk
           (response_of [paris; no_coord; berlin])
           [mk_entry "Paris" "Q90" (Some "48.8566") (Some "2.3522") None;
            mk_entry "Berlin" "Q64" (Some "52.516666666")
              (Some "13.383333333") None] "custom_1");
    first [ reflexivity | discriminate | (vm_compute; reflexivity)
          | (repeat constructor; discriminate) ].
Defined.

Lemma save_keeps_entries_backed_witness :
  entries_backed
    (api_save literal_float endpoint 1700000100 1700000101 (request None)
       stocked_disk).2.
Proof.
  apply (save_keeps_entries_backed literal_float endpoint 1700000100
           1700000101 (request None) stocked_disk
           (mk_SaveResponse "Dataset saved successfully" "custom_1700000100")
           _ stocked_disk_backed).
  vm_compute. reflexivity.
Defined.


Lemma delete_twice_not_found_witness :
  api_delete false (DeleteRequest.mk "custom_1700000000")
    (api_delete true (DeleteRequest.mk "custom_1700000000") stocked_disk).2
  = (Raise (HTTPException 404 "Dataset not found"),
     (api_delete true (DeleteRequest.mk "custom_1700000000") stocked_disk).2).
Proof.
  apply (delete_twice_not_found true false
           (DeleteRequest.mk "custom_1700000000") stocked_disk
           "Dataset deleted").
  vm_compute. reflexivity.
Defined.

Lemma create_then_delete_restores_witness :
  api_delete true
    (DeleteRequest.mk
       (saved_id (mk_SaveResponse "Dataset saved successfully"
                    "custom_1700000100")))
    (api_save literal_float endpoint 1700000100 1700000101 (request None)
       stocked_disk).2
  = (Ok "Dataset deleted", stocked_disk).
Proof.
  apply (create_then_delete_restores literal_float endpoint 1700000100
           1700000101 (request None) stocked_disk [older_entry; stored_entry]);
    first [ reflexivity | (vm_compute; reflexivity)
          | (repeat constructor; vm_compute; discriminate) ].
Defined.

Lemma delete_unremovable_leaves_file_witness :
  ∃ d',
    api_delete false (DeleteRequest.mk "custom_1700000000") stocked_disk
    = (Ok "Dataset deleted", d')
    ∧ files d' = files stocked_disk
    ∧ Forall (λ e, DatasetEntry.id e ≠ "custom_1700000000") (load_datasets d').
Proof.
  apply (delete_unremovable_leaves_file
           (DeleteRequest.mk "custom_1700000000") stocked_disk
           [older_entry; stored_entry] stored_entry); reflexivity.
Defined.

Lemma delete_keeps_entries_backed_witness :
  entries_backed
    (api_delete true (DeleteRequest.mk "custom_1700000000") stocked_disk).2.
Proof.
  apply (delete_keeps_entries_backed true
           (DeleteRequest.mk "custom_1700000000") stocked_disk stored_entry
           "Dataset deleted" _ stocked_disk_backed).
  - reflexivity.
  - intros e He. simpl in He.
    apply elem_of_cons in He as [-> | He];
      [| apply list_elem_of_singleton in He as ->]; reflexivity.
  - intros e He Hid. simpl in He.
    apply elem_of_cons in He as [-> | He];
      [| apply list_elem_of_singleton in He as ->]; [discriminate | done].
  - vm_compute. reflexivity.
Defined.

Lemma records_match_dataset_type_witness :
  ("point" = "point" →
     is_point_record
       (mk_entry "Paris" "Q90" (Some "48.8566") (Some "2.3522") None))
  ∧ ("point" = "polygon" →
       is_shape_record
         (mk_entry "Paris" "Q90" (Some "48.8566") (Some "2.3522") None))
  ∧ ("point" ≠ "point" → "point" ≠ "polygon" →
       is_bare_record
         (mk_entry "Paris" "Q90" (Some "48.8566") (Some "2.3522") None)).
Proof.
  apply (records_match_dataset_type literal_float
           (response_of [paris; no_coord; berlin]) "point"
           [mk_entry "Paris" "Q90" (Some "48.8566") (Some "2.3522") None;
            mk_entry "Berlin" "Q64" (Some "52.516666666")
              (Some "13.383333333") None]).
  - vm_compute. reflexivity.
  - apply elem_of_cons. by left.
Defined.

Lemma record_id_is_last_segment_witness :
  ∃ uri pre,
    binding_value paris "item" = Some uri
    ∧ uri = pre +:+ entry_id
                      (mk_entry "Paris" "Q90" (Some "48.8566") (Some "2.3522")
                         None)
    ∧ Str.all_chars (λ c, negb (Ascii.eqb c "/"))
        (entry_id
           (mk_entry "Paris" "Q90" (Some "48.8566") (Some "2.3522") None))
      = true
    ∧ (pre = "" ∨ ∃ p, pre = p +:+ "/")
    ∧ binding_value paris "itemLabel"
      = Some (entry_label
                (mk_entry "Paris" "Q90" (Some "48.8566") (Some "2.3522") None)).
Proof.
  apply (record_id_is_last_segment literal_float "point" paris).
  vm_compute. reflexivity.
Defined.

Lemma normalizer_concatenates_witness :
  parse_results literal_float (response_of ([paris] ++ [no_coord; berlin]))
    "point"
  = Ok ([mk_entry "Paris" "Q90" (Some "48.8566") (Some "2.3522") None]
        ++ [mk_entry "Berlin" "Q64" (Some "52.516666666")
              (Some "13.383333333") None]).
Proof.
  apply (normalizer_concatenates literal_float "point" [paris]
           [no_coord; berlin]); vm_compute; reflexivity.
Defined.

Lemma unwrapped_coordinate_accepted_witness :
  parse_row literal_float "point" bare_paris
  = Some (mk_entry "Paris" "Q90" (Some "48.8566") (Some "2.3522") None).
Proof.
  apply (unwrapped_coordinate_accepted literal_float bare_paris "Paris"
           "http://www.wikidata.org/entity/Q90" "2.3522" "48.8566"
           "2.3522" "48.8566"); reflexivity.
Defined.

Lemma filters_present_iff_enabled_witness :
  (contains "?pop" (build_query lines)
   ↔ (0 < DatasetConfig.min_pop lines)%Z)
  ∧ (contains "?end" (build_query lines)
     ↔ DatasetConfig.exclude_dissolved lines = true).
Proof.
  apply (filters_present_iff_enabled lines). reflexivity.
Defined.

Lemma other_type_binds_no_geometry_witness :
  plain_config lines = true
  ∧ ¬ contains "?coord" (build_query lines)
  ∧ ¬ contains "?geoShapeUrl" (build_query lines).
Proof.
  split; [reflexivity |].
  apply (other_type_binds_no_geometry lines); [reflexivity | done | done].
Defined.


Lemma created_file_is_served_witness :
  ∃ parsed,
    api_preview literal_float endpoint (SaveRequest.config (request None))
    = Ok parsed
    ∧ serve_file ("dataset_" +:+ pretty 1700000101%Z +:+ ".json")
        (api_save literal_float endpoint 1700000100 1700000101 (request None)
           stocked_disk).2
      = FileResponse ("static/dataset_" +:+ pretty 1700000101%Z +:+ ".json")
          (DataFile parsed).
Proof.
  apply (created_file_is_served literal_float endpoint 1700000100 1700000101
           (request None) stocked_disk
           (mk_SaveResponse "Dataset saved successfully" "custom_1700000100"));
    [reflexivity | vm_compute; reflexivity].
Defined.

Lemma serve_file_absolute_path_witness :
  serve_file "/etc/hostname" host_disk
  = FileResponse "/etc/hostname" (RawFile "pinpoint").
Proof.
  apply (serve_file_absolute_path "/etc/hostname" host_disk
           (RawFile "pinpoint")); reflexivity.
Defined.

Lemma failed_fetch_not_cached_witness :
  proxy_map digest offline "Berlin+Mitte.map" empty_disk
  = (JSONResponse 500, empty_disk, [Str.replace "+" " " "Berlin+Mitte.map"])
  ∧ proxy_map digest online "Berlin+Mitte.map"
      (proxy_map digest offline "Berlin+Mitte.map" empty_disk).1.2
    = (FileResponse (cache_path digest "Berlin+Mitte.map") (RawFile "{}"),
       mk_disk (store empty_disk)
         (<[cache_path digest "Berlin+Mitte.map" := RawFile "{}"]>
            (files empty_disk)),
       [Str.replace "+" " " "Berlin+Mitte.map"]).
Proof.
  apply (failed_fetch_not_cached digest "Berlin+Mitte.map" "{}" empty_disk
           offline online); reflexivity.
Defined.

Lemma repeated_calls_fetch_once_witness :
  (proxy_map_run digest (replicate 3 (online, "Berlin+Mitte.map"))
     empty_disk).2
  = [Str.replace "+" " " "Berlin+Mitte.map"]
  ∧ (proxy_map_run digest (replicate 3 (online, "Berlin+Mitte.map"))
       empty_disk).1.1
    = replicate 3
        (FileResponse (cache_path digest "Berlin+Mitte.map") (RawFile "{}")).
Proof.
  apply (repeated_calls_fetch_once digest 2 "Berlin+Mitte.map" "{}" empty_disk
           online); reflexivity.
Defined.

Lemma cached_shape_is_served_witness :
  serve_file ("maps/" +:+ cache_filename digest "Berlin.map") cached_disk
  = FileResponse (cache_path digest "Berlin.map") (RawFile "{}").
Proof.
  apply (cached_shape_is_served digest "Berlin.map" cached_disk (RawFile "{}"));
    reflexivity.
Defined.

Lemma deleted_dataset_is_gone_witness :
  ∃ d' content,
    api_delete true (DeleteRequest.mk "custom_1700000000") stocked_disk
    = (Ok "Dataset deleted", d')
    ∧ get_datasets d' = DatasetsContent content
    ∧ Forall (λ e, DatasetEntry.id e ≠ "custom_1700000000") content
    ∧ serve_file (DatasetEntry.filename stored_entry) d' = JSONResponse 404.
Proof.
  apply (deleted_dataset_is_gone (DeleteRequest.mk "custom_1700000000")
           stocked_disk [older_entry; stored_entry] stored_entry);
    reflexivity.
Defined.

End FurtherSamples.

(** ** Uniqueness of the stored ids *)

Section UniqueIds.

Context {F : Type}.
Variable float : string → option F.

Lemma replace_existing_ids (rid : string) (new_entry : DatasetEntry.t)
    (datasets : list DatasetEntry.t) :
  DatasetEntry.id new_entry = rid →
  DatasetEntry.id <$> replace_existing rid new_entry datasets
  = DatasetEntry.id <$> datasets.
Proof.
  intros Hnew. induction datasets as [|x rest IH]; [done |].
  cbn [replace_existing].
  destruct (String.eqb_spec (DatasetEntry.id x) rid) as [Hx|_];
    rewrite !fmap_cons.
  - by rewrite Hnew, Hx.
  - by rewrite IH.
Qed.

(** X25. A successful save keeps the stored ids free of repetitions: an
    update leaves the list of ids as it was, and a create adds one id at
    the end, so that uniqueness is kept when the minted id is not in use. *)
Theorem save_keeps_ids_unique
    (fetch_sparql : string → option query_result) (now_id now_file : Z)
    (req : SaveRequest.t) (d : disk F) (r : SaveResponse) (d' : disk F) :
  NoDup (DatasetEntry.id <$> load_datasets d) →
  (truthy (SaveRequest.id req) = false →
     "custom_" +:+ pretty now_id ∉ DatasetEntry.id <$> load_datasets d) →
  api_save float fetch_sparql now_id now_file req d = (Ok r, d') →
  NoDup (DatasetEntry.id <$> load_datasets d')
  ∧ (truthy (SaveRequest.id req) = true →
       DatasetEntry.id <$> load_datasets d'
       = DatasetEntry.id <$> load_datasets d)
  ∧ (truthy (SaveRequest.id req) = false →
       DatasetEntry.id <$> load_datasets d'
       = (DatasetEntry.id <$> load_datasets d) ++ ["custom_" +:+ pretty now_id]).
Proof.
  intros Hnodup Hfresh Hsave.
  apply api_save_Ok_inv in Hsave
    as (parsed & dataset_id & filename & datasets' & _ & _ & _ & -> & Hcase).
  change (load_datasets (mk_disk (Some (Datasets datasets')) _))
    with datasets'.
  destruct Hcase as [(Hid & -> & -> & ->) | (Hid & _ & _ & ->)].
  - rewrite fmap_app. cbn [fmap list_fmap DatasetEntry.id make_new_entry]. split; [| split; [congruence | done]].
    apply NoDup_app. split; [done |]. split.
    + intros x Hx ->%list_elem_of_singleton. by apply Hfresh.
    + apply NoDup_singleton.
  - rewrite replace_existing_ids by done.
    split; [done |]. split; [done | congruence].
Qed.

End UniqueIds.

Section UniqueIdsSample.

Import Sample.

Lemma save_keeps_ids_unique_witness :
  NoDup (DatasetEntry.id
           <$> load_datasets
                 (api_save literal_float endpoint 1700000100 1700000101
                    (request None) stocked_disk).2)
  ∧ (truthy (SaveRequest.id (request None)) = true →
       DatasetEntry.id
         <$> load_datasets
               (api_save literal_float endpoint 1700000100 1700000101
                  (request None) stocked_disk).2
       = DatasetEntry.id <$> load_datasets stocked_disk)
  ∧ (truthy (SaveRequest.id (request None)) = false →
       DatasetEntry.id
         <$> load_datasets
               (api_save literal_float endpoint 1700000100 1700000101
                  (request None) stocked_disk).2
       = (DatasetEntry.id <$> load_datasets stocked_disk)
         ++ ["custom_" +:+ pretty 1700000100%Z]).
Proof.
  apply (save_keeps_ids_unique literal_float endpoint 1700000100 1700000101
           (request None) stocked_disk
           (mk_SaveResponse "Dataset saved successfully" "custom_1700000100")).
  - simpl. apply NoDup_cons. split.
    + intros ?%list_elem_of_singleton. discriminate.
    + apply NoDup_singleton.
  - intros _ Hin. simpl in Hin.
    apply elem_of_cons in Hin as [Hin | Hin%list_elem_of_singleton];
      vm_compute in Hin; discriminate.
  - vm_compute. reflexivity.
Defined.

End UniqueIdsSample.

(** ** Saves over every store document *)

Section WideSaves.

Context {F : Type}.
Variable float : string → option F.

Implicit Types (req : SaveRequest.t) (d : wide_disk F) (now_id now_file : Z).
Implicit Types fetch_sparql : string → option query_result.

(** X1. A save that fails never changes the store document, and changes a
    file in one case only: a create over a store document that is JSON but
    no list has written its data file when it fails at
    [datasets.append]. *)
Theorem failed_save_effect fetch_sparql now_id now_file req d
    (e : error) (d' : wide_disk F) :
  api_save_wide float fetch_sparql now_id now_file req d = (Failure e, d') →
  held d' = held d
  ∧ (wide_files d' = wide_files d
     ∨ ∃ empty parsed,
         held d = Unlisted empty
         ∧ truthy (SaveRequest.id req) = false
         ∧ e = AttributeError
         ∧ api_preview float fetch_sparql (SaveRequest.config req) = Ok parsed
         ∧ parsed ≠ []
         ∧ wide_files d'
           = <[Str.path_join "static"
                 ("dataset_" +:+ pretty now_file +:+ ".json")
               := DataFile parsed]> (wide_files d)).
Proof.
  destruct d as [[doc|empty] fs]; unfold api_save_wide; simpl.
  - destruct (api_save float fetch_sparql now_id now_file req (mk_disk doc fs))
      as [[r|x] d1] eqn:Hsave; [done |].
    intros [= <- <-].
    apply api_save_Raise_keeps_disk in Hsave as ->. simpl. by split; [| left].
  - unfold api_preview.
    destruct (fetch_sparql _) as [raw_data|];
      [| intros [= <- <-]; by split; [| left]].
    destruct (decide (raw_data = ∅));
      [intros [= <- <-]; by split; [| left] |].
    destruct (parse_results _ _ _) as [[|r parsed]|];
      [intros [= <- <-]; by split; [| left] |
      | intros [= <- <-]; by split; [| left]].
    destruct (truthy (SaveRequest.id req)) eqn:Hid.
    + destruct empty; intros [= <- <-]; by split; [| left].
    + intros [= <- <-]. split; [done |]. right.
      exists empty, (r :: parsed). by repeat split.
Qed.

(** X26. A create over a store document that is JSON but no list writes
    the data file of the fetched records and then fails with an
    [AttributeError], leaving the document as it was: a write without its
    metadata entry. *)
Theorem create_over_unlisted_store fetch_sparql now_id now_file req d
    (empty : bool) (raw_data : query_result) (parsed : list (entry F)) :
  held d = Unlisted empty →
  truthy (SaveRequest.id req) = false →
  fetch_sparql (build_query (SaveRequest.config req)) = Some raw_data →
  parse_results float raw_data
    (DatasetConfig.dataset_type (SaveRequest.config req)) = Ok parsed →
  parsed ≠ [] →
  api_save_wide float fetch_sparql now_id now_file req d
  = (Failure AttributeError,
     mk_wide_disk (Unlisted empty)
       (<[Str.path_join "static" ("dataset_" +:+ pretty now_file +:+ ".json")
          := DataFile parsed]> (wide_files d))).
Proof.
  intros Hheld Hid Hfetch Hparse Hne. unfold api_save_wide.
  rewrite Hheld, Hfetch.
  destruct (decide (raw_data = ∅)) as [He|_].
  { by destruct (parse_results_Ok_nonempty float _ _ _ Hparse). }
  rewrite Hparse. destruct parsed as [|r rest]; [done |]. by rewrite Hid.
Qed.


End WideSaves.

Section WideSamples.

Import Sample.

Lemma failed_save_effect_witness :
  held
    (mk_wide_disk (Unlisted true)
       (<[Str.path_join "static"
            ("dataset_" +:+ pretty 1700000101%Z +:+ ".json")
          := DataFile
               [mk_entry "Paris" "Q90" (Some "48.8566") (Some "2.3522") None;
                mk_entry "Berlin" "Q64" (Some "52.516666666")
                  (Some "13.383333333") None]]> (∅ : gmap string (file string))))
  = held (mk_wide_disk (Unlisted true) (∅ : gmap string (file string)))
  ∧ (wide_files
       (mk_wide_disk (Unlisted true)
          (<[Str.path_join "static"
               ("dataset_" +:+ pretty 1700000101%Z +:+ ".json")
             := DataFile
                  [mk_entry "Paris" "Q90" (Some "48.8566") (Some "2.3522") None;
                   mk_entry "Berlin" "Q64" (Some "52.516666666")
                     (Some "13.383333333") None]]>
             (∅ : gmap string (file string))))
     = wide_files (mk_wide_disk (Unlisted true) (∅ : gmap string (file string)))
     ∨ ∃ empty parsed,
         held (mk_wide_disk (Unlisted true) (∅ : gmap string (file string)))
         = Unlisted empty
         ∧ truthy (SaveRequest.id (request None)) = false
         ∧ AttributeError = AttributeError
         ∧ api_preview literal_float endpoint (SaveRequest.config (request None))
           = Ok parsed
         ∧ parsed ≠ []
         ∧ wide_files
             (mk_wide_disk (Unlisted true)
                (<[Str.path_join "static"
                     ("dataset_" +:+ pretty 1700000101%Z +:+ ".json")
                   := DataFile
                        [mk_entry "Paris" "Q90" (Some "48.8566")
                           (Some "2.3522") None;
                         mk_entry "Berlin" "Q64" (Some "52.516666666")
                           (Some "13.383333333") None]]>
                   (∅ : gmap string (file string))))
           = <[Str.path_join "static"
                 ("dataset_" +:+ pretty 1700000101%Z +:+ ".json")
               := DataFile parsed]>
               (wide_files
                  (mk_wide_disk (Unlisted true)
                     (∅ : gmap string (file string))))).
Proof.
  apply (failed_save_effect literal_float endpoint 1700000100 1700000101
           (request None)
           (mk_wide_disk (Unlisted true) (∅ : gmap string (file string)))
           AttributeError).
  vm_compute. reflexivity.
Defined.

Lemma create_over_unlisted_store_witness :
  api_save_wide literal_float endpoint 1700000100 1700000101 (request None)
    (mk_wide_disk (Unlisted false) (∅ : gmap string (file string)))
  = (Failure AttributeError,
     mk_wide_disk (Unlisted false)
       (<[Str.path_join "static"
            ("dataset_" +:+ pretty 1700000101%Z +:+ ".json")
          := DataFile
               [mk_entry "Paris" "Q90" (Some "48.8566") (Some "2.3522") None;
                mk_entry "Berlin" "Q64" (Some "52.516666666")
                  (Some "13.383333333") None]]>
          (wide_files
             (mk_wide_disk (Unlisted false) (∅ : gmap string (file string)))))).
Proof.
  apply (create_over_unlisted_store literal_float endpoint 1700000100
           1700000101 (request None)
           (mk_wide_disk (Unlisted false) (∅ : gmap string (file string)))
           false (response_of [paris; no_coord; berlin]));
    first [reflexivity | discriminate | (vm_compute; reflexivity)].
Defined.

End WideSamples.
